(** * XDP-Proxy loader: the lifecycle of [src/loader/prog.c]

    A shallow embedding of [main] and [unpin_needed_maps].  The loader is a
    sequence of calls into libc, libbpf/libxdp and the loader's own helper
    modules.  None of those is part of [prog.c]; each is modelled as an
    external call whose result is read from a [world] (the oracle of one run)
    and whose invocation is appended to a trace.  [main] is then a function
    from a world to a trace and an outcome. *)

From Stdlib Require Import ZArith List String Bool Lia.
Import ListNotations.
Local Open Scope string_scope.
Local Open Scope list_scope.
Local Open Scope Z_scope.

(** ** Data *)

Definition EXIT_SUCCESS : Z := 0.
Definition EXIT_FAILURE : Z := 1.

(** [int] and [unsigned int] are 32 bits wide; [time_t] is a signed 64-bit
    count of seconds and is kept as a plain [Z]. *)
Definition to_uint (z : Z) : Z := z mod 2 ^ 32.
Definition to_int (z : Z) : Z := (z + 2 ^ 31) mod 2 ^ 32 - 2 ^ 31.

(** The fields of [config__t] that [prog.c] reads.  The struct is declared in
    [loader/utils/config.h]; the one-bit fields are booleans here and the rule
    table, which the loader only hands on to [update_fwd_rules], is an opaque
    payload. *)
Record config__t := {
  cfg_verbose : Z;
  cfg_log_file : option string;
  cfg_interface : option string;          (* NULL or a name *)
  cfg_pin_maps : bool;
  cfg_update_time : Z;
  cfg_no_stats : bool;
  cfg_stats_per_second : bool;
  cfg_stdout_update_time : Z;
  cfg_rules : list Z
}.

(** [cli_t] after [parse_cli]; the override fields keep -1 for "unset". *)
Record cli_t := {
  cli_cfg_file : string;
  cli_help : bool;
  cli_list : bool;
  cli_skb : Z;
  cli_offload : Z;
  cli_time : Z;
  cli_verbose : Z;
  cli_log_file : option string;
  cli_interface : option string;
  cli_pin_maps : Z;
  cli_update_time : Z;
  cli_no_stats : Z;
  cli_stats_per_second : Z;
  cli_stdout_update_time : Z
}.

Record config_overrides_t := {
  ovr_verbose : Z;
  ovr_log_file : option string;
  ovr_interface : option string;
  ovr_pin_maps : Z;
  ovr_update_time : Z;
  ovr_no_stats : Z;
  ovr_stats_per_second : Z;
  ovr_stdout_update_time : Z
}.

Definition overrides_of_cli (cli : cli_t) : config_overrides_t :=
  {| ovr_verbose := cli_verbose cli;
     ovr_log_file := cli_log_file cli;
     ovr_interface := cli_interface cli;
     ovr_pin_maps := cli_pin_maps cli;
     ovr_update_time := cli_update_time cli;
     ovr_no_stats := cli_no_stats cli;
     ovr_stats_per_second := cli_stats_per_second cli;
     ovr_stdout_update_time := cli_stdout_update_time cli |}.

(** ** External calls *)

Inductive arg := AInt (z : Z) | AStr (s : string).

(** One constructor per function [prog.c] calls; a trace is a list of these
    in program order.  [log_msg] carries its required level, its error flag
    and the format string of the source with the arguments. *)
Inductive call :=
| parse_cli
| print_help_menu
| set_cfg_defaults
| load_config (cfg_file : string) (ovr : config_overrides_t)
| fprintf_stderr (fmt : string) (args : list arg)
| print_config (cfg : config__t)
| print_tool_info
| log_msg (req_lvl : Z) (error : bool) (fmt : string) (args : list arg)
| setrlimit
| if_nametoindex (name : string)
| set_libbpf_log_mode (silent : bool)
| load_bpf_obj (path : string)
| attach_xdp (ifidx : Z) (detach : bool) (skb offload : Z)
| get_map_fd (name : string)
| ring_buffer__new (fd : Z)
| get_bpf_obj
| unpin_map (dir name : string)
| pin_map (dir name : string)
| update_fwd_rules (fd : Z) (cfg : config__t)
| signal (signum : string)
| get_nprocs_conf
| time_NULL
| stat (path : string)
| calc_stats (fd cpus : Z) (per_second : bool)
| poll_fwd_rules_rb
| usleep (usec : Z)
| fprintf_stdout (fmt : string)
| ring_buffer__free
| xdp_program__close.

(** ** The monad of [main]: a trace, and either a value to go on with, a
    [return] from [main], or a run that is still inside the control loop when
    the oracle ends. *)

Inductive outcome (A : Type) :=
| Return (code : Z)
| Pending
| Continue (a : A).
Arguments Return {A} code.
Arguments Pending {A}.
Arguments Continue {A} a.

Definition M (A : Type) : Type := list call * outcome A.

Definition ret {A} (a : A) : M A := ([], Continue a).

Definition bind {A B} (m : M A) (f : A -> M B) : M B :=
  match m with
  | (t, Return c) => (t, Return c)
  | (t, Pending) => (t, Pending)
  | (t, Continue a) => let (t', r) := f a in (t ++ t', r)
  end.

Definition do (c : call) : M unit := ([c], Continue tt).
Definition return_ {A} (code : Z) : M A := ([], Return code).
Definition when (b : bool) (m : M unit) : M unit := if b then m else ret tt.

Notation "x <- m ;; k" := (bind m (fun x => k))
  (at level 61, m at next level, right associativity).
Notation "m ;;; k" := (bind m (fun _ => k))
  (at level 61, right associativity).

Definition trace {A} (m : M A) : list call := fst m.
Definition result {A} (m : M A) : outcome A := snd m.

(** ** The oracle of a run *)

(** What the environment answers during one pass through the loop body. *)
Record iter_env := {
  ie_cur_time : Z;                      (* time(NULL), line 276 *)
  ie_stat : option Z;                   (* stat(): None on failure, else st_mtime *)
  ie_load_config : Z * config__t;       (* return value and cfg as load_config leaves it *)
  ie_time_reload : Z;                   (* time(NULL), line 299 *)
  ie_time_check : Z;                    (* time(NULL), line 309 *)
  ie_calc_stats : Z;
  ie_sig_work : bool;                   (* SIGINT/SIGTERM delivered before usleep *)
  ie_sig_sleep : bool                   (* SIGINT/SIGTERM delivered during usleep *)
}.

Record world := {
  (* build-time configuration: macros that prog.c uses but does not define *)
  ENABLE_RULE_LOGGING : bool;
  XDP_OBJ_PATH : string;
  XDP_MAP_PIN_DIR : string;
  (* startup *)
  w_cli : cli_t;                        (* cli after parse_cli *)
  w_load_config : Z * config__t;
  w_setrlimit : Z;
  w_if_nametoindex : Z;                 (* unsigned int: 0 on failure (POSIX) *)
  w_load_bpf_obj : bool;                (* prog != NULL *)
  w_attach : Z * option string;         (* return value and mode_used *)
  w_map_stats : Z;
  w_map_fwd_rules : Z;
  w_map_fwd_rules_log : Z;
  w_ring_buffer_new : bool;             (* rb != NULL *)
  w_unpin_stale : Z;                    (* unpin_map before pinning *)
  w_pin : Z;
  w_nprocs : Z;
  w_time_end : Z;                       (* time(NULL), line 257 *)
  w_time_update : Z;                    (* time(NULL), line 260 *)
  w_time_config : Z;                    (* time(NULL), line 261 *)
  w_sig_startup : bool;                 (* signal between signal() and the first test of cont *)
  (* control loop *)
  w_iters : list iter_env;
  (* cleanup *)
  w_detach : Z;
  w_unpin_final : Z
}.

(** ** [unpin_needed_maps] (lines 31-43)

    [unpin_ret] is what [unpin_map] answers in this call; the directory is
    the macro [XDP_MAP_PIN_DIR]. *)

Definition unpin_needed_maps (dir : string) (unpin_ret : Z) (ignore_errors : bool)
  : M unit :=
  do (unpin_map dir "map_fwd_rules") ;;;
  when (negb (unpin_ret =? 0))
    (when (negb ignore_errors)
       (do (log_msg 1 false
              "[WARNING] Failed to un-pin BPF map 'map_block' from file system (%d)."
              [AInt unpin_ret]))).

(** ** [main] (lines 45-364) *)

(** The locals of [main] that are fixed once the control loop starts. *)
Record locals := {
  ifidx : Z;
  map_stats : Z;
  map_fwd_rules : Z;
  rb : bool;                            (* rb != NULL; false without rule logging *)
  cpus : Z;
  end_time : Z;
  sleep_time : Z
}.

(** The variables the loop body writes: [cfg] (through [load_config]), the
    two timestamps, and the globals [cont] and [doing_stats]. *)
Record loop_vars := {
  cfg : config__t;
  cont : bool;
  doing_stats : bool;
  last_update_check : Z;
  last_config_check : Z
}.

(** Line 257: [unsigned int end_time = (cli.time > 0) ? time(NULL) + cli.time : 0]. *)
Definition end_time_of (cli_time now : Z) : Z :=
  if 0 <? cli_time then to_uint (now + cli_time) else 0.

(** Line 263: [unsigned int sleep_time = cfg.stdout_update_time * 1000];
    the product is reduced modulo 2^32 as the conversion to [unsigned int]
    does. *)
Definition sleep_time_of (c : config__t) : Z :=
  to_uint (cfg_stdout_update_time c * 1000).

(** The locals as lines 130-263 initialise them; [rb0] is the ring buffer
    test of lines 204-219. *)
Definition init_locals (w : world) (rb0 : bool) : locals :=
  {| ifidx := to_int (w_if_nametoindex w);
     map_stats := w_map_stats w;
     map_fwd_rules := w_map_fwd_rules w;
     rb := rb0;
     cpus := w_nprocs w;
     end_time := end_time_of (cli_time (w_cli w)) (w_time_end w);
     sleep_time := sleep_time_of (snd (w_load_config w)) |}.

(** [cfg] after the first [load_config], [cont] (initially 1, cleared by a
    signal that arrives before the first test), [doing_stats] (lines 268-271)
    and the two timestamps (lines 260-261). *)
Definition init_vars (w : world) : loop_vars :=
  {| cfg := snd (w_load_config w);
     cont := negb (w_sig_startup w);
     doing_stats := negb (cfg_no_stats (snd (w_load_config w)));
     last_update_check := w_time_update w;
     last_config_check := w_time_config w |}.

(** Lines 222-241: pinning, after the attempt to remove a stale pin. *)
Definition pin_needed_maps (w : world) (c : config__t) : M unit :=
  when (cfg_pin_maps c)
    (do (log_msg 2 false "Pinning BPF maps..." []) ;;;
     do get_bpf_obj ;;;
     unpin_needed_maps (XDP_MAP_PIN_DIR w) (w_unpin_stale w) true ;;;
     do (pin_map (XDP_MAP_PIN_DIR w) "map_fwd_rules") ;;;
     if negb (w_pin w =? 0)
     then do (log_msg 1 false
                "[WARNING] Failed to pin 'map_fwd_rules' to file system (%d)..."
                [AInt (w_pin w)])
     else do (log_msg 3 false
                "BPF map 'map_fwd_rules' pinned to '%s/map_fwd_rules'."
                [AStr (XDP_MAP_PIN_DIR w)])).

(** Lines 204-219, compiled only under [ENABLE_RULE_LOGGING]. *)
Definition open_rule_log (w : world) : M bool :=
  if ENABLE_RULE_LOGGING w then
    do (get_map_fd "map_fwd_rules_log") ;;;
    if w_map_fwd_rules_log w <? 0
    then do (log_msg 1 false
               "[WARNING] Failed to find 'map_fwd_rules_log' BPF map. Rule logging will be disabled..."
               []) ;;;
         ret false
    else do (log_msg 3 false "map_fwd_rules_log FD => %d."
               [AInt (w_map_fwd_rules_log w)]) ;;;
         do (ring_buffer__new (w_map_fwd_rules_log w)) ;;;
         ret (w_ring_buffer_new w)
  else ret false.

(** Lines 45-219: from the command line to the resolved map handles.  The
    value is the ring buffer test ([rb != NULL]). *)
Definition bring_up (w : world) : M bool :=
  let cli := w_cli w in
  do parse_cli ;;;
  if cli_help cli then
    do print_help_menu ;;; return_ EXIT_SUCCESS
  else
  do set_cfg_defaults ;;;
  let cfg_overrides := overrides_of_cli cli in
  do (load_config (cli_cfg_file cli) cfg_overrides) ;;;
  let '(ret0, cfg0) := w_load_config w in
  if negb (ret0 =? 0) then
    do (fprintf_stderr "[ERROR] Failed to load config from file system (%s)(%d).\n"
          [AStr (cli_cfg_file cli); AInt ret0]) ;;;
    return_ EXIT_FAILURE
  else
  if cli_list cli then
    do (print_config cfg0) ;;; return_ EXIT_SUCCESS
  else
  when (0 <? cfg_verbose cfg0) (do print_tool_info) ;;;
  match cfg_interface cfg0 with
  | None =>
    do (log_msg 0 true "[ERROR] No interface specified in config or CLI override." []) ;;;
    return_ EXIT_FAILURE
  | Some iface =>
  do (log_msg 2 false "Raising RLimit..." []) ;;;
  do setrlimit ;;;
  if negb (w_setrlimit w =? 0) then
    do (log_msg 0 true
          "[ERROR] Failed to raise rlimit. Please make sure this program is ran as root!\n"
          []) ;;;
    return_ EXIT_FAILURE
  else
  do (log_msg 2 false "Retrieving interface index for '%s'..." [AStr iface]) ;;;
  do (if_nametoindex iface) ;;;
  let ifidx0 := to_int (w_if_nametoindex w) in
  if ifidx0 <? 0 then
    do (log_msg 0 true "[ERROR] Failed to retrieve index of network interface '%s'.\n"
          [AStr iface]) ;;;
    return_ EXIT_FAILURE
  else
  do (log_msg 2 false "Loading XDP/BPF program at '%s'..." [AStr (XDP_OBJ_PATH w)]) ;;;
  let silent := negb (4 <? cfg_verbose cfg0) in
  do (set_libbpf_log_mode silent) ;;;
  do (load_bpf_obj (XDP_OBJ_PATH w)) ;;;
  if negb (w_load_bpf_obj w) then
    do (log_msg 0 true "[ERROR] Failed to load eBPF object file. Object path => %s.\n"
          [AStr (XDP_OBJ_PATH w)]) ;;;
    return_ EXIT_FAILURE
  else
  do (log_msg 2 false "Attaching XDP program to interface '%s'..." [AStr iface]) ;;;
  do (attach_xdp ifidx0 false (cli_skb cli) (cli_offload cli)) ;;;
  let '(ret1, mode_used) := w_attach w in
  if negb (ret1 =? 0) then
    do (log_msg 0 true
          "[ERROR] Failed to attach XDP program to interface '%s' using available modes (%d).\n"
          [AStr iface; AInt ret1]) ;;;
    return_ EXIT_FAILURE
  else
  match mode_used with
  | Some m => do (log_msg 1 false "Attached XDP program using mode '%s'..." [AStr m])
  | None => ret tt
  end ;;;
  do (log_msg 2 false "Retrieving BPF map FDs..." []) ;;;
  do (get_map_fd "map_stats") ;;;
  if w_map_stats w <? 0 then
    do (log_msg 0 true "[ERROR] Failed to find 'map_stats' BPF map.\n" []) ;;;
    return_ EXIT_FAILURE
  else
  do (log_msg 3 false "map_stats FD => %d." [AInt (w_map_stats w)]) ;;;
  do (get_map_fd "map_fwd_rules") ;;;
  if w_map_fwd_rules w <? 0 then
    do (log_msg 0 true "[ERROR] Failed to find 'map_fwd_rules' BPF map.\n" []) ;;;
    return_ EXIT_FAILURE
  else
  do (log_msg 3 false "map_fwd_rules FD => %d." [AInt (w_map_fwd_rules w)]) ;;;
  open_rule_log w
  end.

(** Lines 243-271: the first rule load, the signal handlers and the locals
    of the loop. *)
Definition enter_loop (w : world) (rb0 : bool) : M (locals * loop_vars) :=
  do (log_msg 2 false "Updating rules..." []) ;;;
  do (update_fwd_rules (w_map_fwd_rules w) (snd (w_load_config w))) ;;;
  do (signal "SIGINT") ;;;
  do (signal "SIGTERM") ;;;
  do get_nprocs_conf ;;;
  do (log_msg 4 false "Retrieved %d CPUs on host." [AInt (w_nprocs w)]) ;;;
  when (0 <? cli_time (w_cli w)) (do time_NULL) ;;;
  do time_NULL ;;;
  do time_NULL ;;;
  ret (init_locals w rb0, init_vars w).

(** Lines 45-271: everything before [while (cont)]. *)
Definition startup (w : world) : M (locals * loop_vars) :=
  rb0 <- bring_up w ;;
  pin_needed_maps w (snd (w_load_config w)) ;;;
  enter_loop w rb0.

(** Modelled from the spec: [signal_hndl], the handler installed at lines
    249-250, lives in the helpers module and is not part of [prog.c]; by the
    spec it only sets the termination flag (here: [cont = 0]) and does
    nothing else. *)
Definition signal_hndl (delivered : bool) (v : loop_vars) : loop_vars :=
  {| cfg := cfg v;
     cont := if delivered then false else cont v;
     doing_stats := doing_stats v;
     last_update_check := last_update_check v;
     last_config_check := last_config_check v |}.

(** Lines 289-305: the reload proper. *)
Definition reload (w : world) (l : locals) (ie : iter_env) (v : loop_vars)
  : M loop_vars :=
  do (load_config (cli_cfg_file (w_cli w)) (overrides_of_cli (w_cli w))) ;;;
  let '(ret1, cfg1) := ie_load_config ie in
  when (negb (ret1 =? 0))
    (do (log_msg 1 false
           "[WARNING] Failed to load config after update check (%d)...\n"
           [AInt ret1])) ;;;
  do (update_fwd_rules (map_fwd_rules l) cfg1) ;;;
  do time_NULL ;;;
  ret {| cfg := cfg1;
         cont := cont v;
         doing_stats :=
           if negb (cfg_no_stats cfg1) && negb (doing_stats v)
           then true else doing_stats v;
         last_update_check := last_update_check v;
         last_config_check := ie_time_reload ie |}.

(** Line 285: is the update check due? *)
Definition check_due (v : loop_vars) (cur_time : Z) : bool :=
  (0 <? cfg_update_time (cfg v))
  && (cfg_update_time (cfg v) <? cur_time - last_update_check v).

(** Line 288: [stat] succeeded and the file is newer than the last reload. *)
Definition file_changed (ie : iter_env) (v : loop_vars) : bool :=
  match ie_stat ie with
  | Some st_mtime => last_config_check v <? st_mtime
  | None => false
  end.

(** Lines 285-310. *)
Definition auto_update (w : world) (l : locals) (ie : iter_env) (v : loop_vars)
  : M loop_vars :=
  if check_due v (ie_cur_time ie) then
    do (stat (cli_cfg_file (w_cli w))) ;;;
    v1 <- (if file_changed ie v then reload w l ie v else ret v) ;;
    do time_NULL ;;;
    ret {| cfg := cfg v1;
           cont := cont v1;
           doing_stats := doing_stats v1;
           last_update_check := ie_time_check ie;
           last_config_check := last_config_check v1 |}
  else ret v.

(** Lines 313-319. *)
Definition show_stats (l : locals) (ie : iter_env) (v : loop_vars) : M unit :=
  when (negb (cfg_no_stats (cfg v)))
    (do (calc_stats (map_stats l) (cpus l) (cfg_stats_per_second (cfg v))) ;;;
     when (negb (ie_calc_stats ie =? 0))
       (do (log_msg 1 false
              "[WARNING] Failed to calculate packet stats. Stats map FD => %d...\n"
              [AInt (map_stats l)]))).

Inductive flow := Break | Next (v : loop_vars).

(** Lines 275-325: one pass through the body of [while (cont)]. *)
Definition loop_body (w : world) (l : locals) (ie : iter_env) (v : loop_vars)
  : M flow :=
  do time_NULL ;;;
  let cur_time := ie_cur_time ie in
  if (0 <? end_time l) && (end_time l <=? cur_time) then ret Break
  else
    v1 <- auto_update w l ie v ;;
    show_stats l ie v1 ;;;
    when (ENABLE_RULE_LOGGING w) (do poll_fwd_rules_rb) ;;;
    let v2 := signal_hndl (ie_sig_work ie) v1 in
    do (usleep (sleep_time l)) ;;;
    ret (Next (signal_hndl (ie_sig_sleep ie) v2)).

(** Lines 273-326.  The loop reads one [iter_env] per pass; a run whose
    oracle ends while [cont] is still set is [Pending]. *)
Fixpoint control_loop (w : world) (l : locals) (its : list iter_env)
  (v : loop_vars) : M loop_vars :=
  if cont v then
    match its with
    | [] => ([], Pending)
    | ie :: its' =>
      f <- loop_body w l ie v ;;
      match f with
      | Break => ret v
      | Next v' => control_loop w l its' v'
      end
    end
  else ret v.

(** Lines 328-363. *)
Definition cleanup (w : world) (l : locals) (v : loop_vars) : M unit :=
  do (fprintf_stdout "\n") ;;;
  do (log_msg 2 false "Cleaning up..." []) ;;;
  when (ENABLE_RULE_LOGGING w) (when (rb l) (do ring_buffer__free)) ;;;
  do (attach_xdp (ifidx l) true (cli_skb (w_cli w)) (cli_offload (w_cli w))) ;;;
  if negb (w_detach w =? 0) then
    do (log_msg 0 true "[ERROR] Failed to detach XDP program from interface '%s'.\n"
          [match cfg_interface (cfg v) with Some i => AStr i | None => AStr "(null)" end]) ;;;
    return_ EXIT_FAILURE
  else
  when (cfg_pin_maps (cfg v))
    (do (log_msg 2 false "Un-pinning BPF maps from file system..." []) ;;;
     do get_bpf_obj ;;;
     unpin_needed_maps (XDP_MAP_PIN_DIR w) (w_unpin_final w) false) ;;;
  do xdp_program__close ;;;
  do (log_msg 1 false "Exiting.\n" []) ;;;
  return_ EXIT_SUCCESS.

Definition main (w : world) : M unit :=
  lv <- startup w ;;
  let '(l, v) := lv in
  v' <- control_loop w l (w_iters w) v ;;
  cleanup w l v'.

(** The exit status of the process, if the run reaches a [return]. *)
Definition exit_status (m : M unit) : option Z :=
  match result m with
  | Return code => Some code
  | _ => None
  end.

(** ** Observations on traces *)

Definition is_attach (c : call) : bool :=
  match c with attach_xdp _ false _ _ => true | _ => false end.

Definition is_detach (c : call) : bool :=
  match c with attach_xdp _ true _ _ => true | _ => false end.

Definition is_load_config (c : call) : bool :=
  match c with load_config _ _ => true | _ => false end.

Definition is_load_bpf_obj (c : call) : bool :=
  match c with load_bpf_obj _ => true | _ => false end.

Definition is_close (c : call) : bool :=
  match c with xdp_program__close => true | _ => false end.

(** A warning is a [log_msg] at level 1, not flagged as an error, whose text
    starts with the tag the source uses. *)
Definition is_warning (c : call) : bool :=
  match c with
  | log_msg 1 false fmt _ => String.prefix "[WARNING]" fmt
  | _ => false
  end.

(** The warning of line 40. *)
Definition is_unpin_warning (c : call) : bool :=
  match c with
  | log_msg 1 false fmt _ =>
    String.eqb fmt "[WARNING] Failed to un-pin BPF map 'map_block' from file system (%d)."
  | _ => false
  end.

(** The error of line 134. *)
Definition is_lookup_error (c : call) : bool :=
  match c with
  | log_msg 0 true fmt _ =>
    String.eqb fmt "[ERROR] Failed to retrieve index of network interface '%s'.\n"
  | _ => false
  end.

(** An error report is a [log_msg] at level 0 with the error flag set. *)
Definition is_error_report (c : call) : bool :=
  match c with
  | log_msg 0 true _ _ => true
  | _ => false
  end.

Definition count (p : call -> bool) (t : list call) : nat :=
  List.length (filter p t).

(** The arguments of the [usleep] calls of a trace, in order. *)
Fixpoint sleeps (t : list call) : list Z :=
  match t with
  | [] => []
  | usleep us :: t' => us :: sleeps t'
  | _ :: t' => sleeps t'
  end.

(** Does this pass through the loop body reload the configuration? *)
Definition reloads (w : world) (l : locals) (ie : iter_env) (v : loop_vars) : bool :=
  existsb is_load_config (trace (loop_body w l ie v)).

(** Line 279: the end-time test of one pass. *)
Definition past_end_time (l : locals) (ie : iter_env) : bool :=
  (0 <? end_time l) && (end_time l <=? ie_cur_time ie).

(** The guards of lines 62-125: the run gets as far as [if_nametoindex]. *)
Definition lookup_reached (w : world) : bool :=
  negb (cli_help (w_cli w))
  && (fst (w_load_config w) =? 0)
  && negb (cli_list (w_cli w))
  && (match cfg_interface (snd (w_load_config w)) with Some _ => true | None => false end)
  && (w_setrlimit w =? 0).

(** The guards of lines 62-171: the run gets as far as a successful attach. *)
Definition attach_ok (w : world) : bool :=
  lookup_reached w
  && negb (to_int (w_if_nametoindex w) <? 0)
  && w_load_bpf_obj w
  && (fst (w_attach w) =? 0).

(** The guards of lines 62-200 that let [main] reach the pinning step. *)
Definition startup_ok (w : world) : bool :=
  attach_ok w
  && negb (w_map_stats w <? 0)
  && negb (w_map_fwd_rules w <? 0).

(** ** An idealised clock

    For the claims that speak of elapsed time the wall clock is counted in
    microseconds; [time(NULL)] reads its whole seconds, [usleep us] advances
    it by [us] unless a signal is handled during the sleep, and no other call
    takes time.  [elapsed_us] is the time taken by a trace none of whose
    sleeps is interrupted; [elapsed_with_signals_us] below is the general
    case. *)

Definition elapsed_us (t : list call) : Z := fold_right Z.add 0 (sleeps t).



(** No signal arrives during this pass. *)
Definition quiet (ie : iter_env) : bool :=
  negb (ie_sig_work ie) && negb (ie_sig_sleep ie).

(** ** Sample runs *)

Definition sample_cfg : config__t :=
  {| cfg_verbose := 2;
     cfg_log_file := None;
     cfg_interface := Some "eth0";
     cfg_pin_maps := true;
     cfg_update_time := 30;
     cfg_no_stats := false;
     cfg_stats_per_second := false;
     cfg_stdout_update_time := 1000;
     cfg_rules := [] |}.

Definition sample_cli : cli_t :=
  {| cli_cfg_file := "/etc/xdpfwd/xdpfwd.conf";
     cli_help := false;
     cli_list := false;
     cli_skb := 0;
     cli_offload := 0;
     cli_time := 0;
     cli_verbose := -1;
     cli_log_file := None;
     cli_interface := None;
     cli_pin_maps := -1;
     cli_update_time := -1;
     cli_no_stats := -1;
     cli_stats_per_second := -1;
     cli_stdout_update_time := -1 |}.

(** A pass in which nothing happens: the time reading is [now], the file is
    as old as the epoch, the stats read succeeds and no signal arrives. *)
Definition idle_pass (now : Z) : iter_env :=
  {| ie_cur_time := now;
     ie_stat := Some 0;
     ie_load_config := (0, sample_cfg);
     ie_time_reload := now;
     ie_time_check := now;
     ie_calc_stats := 0;
     ie_sig_work := false;
     ie_sig_sleep := false |}.

Definition with_signal_in_sleep (ie : iter_env) : iter_env :=
  {| ie_cur_time := ie_cur_time ie;
     ie_stat := ie_stat ie;
     ie_load_config := ie_load_config ie;
     ie_time_reload := ie_time_reload ie;
     ie_time_check := ie_time_check ie;
     ie_calc_stats := ie_calc_stats ie;
     ie_sig_work := ie_sig_work ie;
     ie_sig_sleep := true |}.

(** A run in which every call succeeds: two idle passes, then SIGINT during
    the third sleep. *)
Definition sample_world : world :=
  {| ENABLE_RULE_LOGGING := false;
     XDP_OBJ_PATH := "/etc/xdpfwd/xdp_prog.o";
     XDP_MAP_PIN_DIR := "/sys/fs/bpf/xdpfwd";
     w_cli := sample_cli;
     w_load_config := (0, sample_cfg);
     w_setrlimit := 0;
     w_if_nametoindex := 2;
     w_load_bpf_obj := true;
     w_attach := (0, Some "DRV/native");
     w_map_stats := 5;
     w_map_fwd_rules := 6;
     w_map_fwd_rules_log := 7;
     w_ring_buffer_new := true;
     w_unpin_stale := 0;
     w_pin := 0;
     w_nprocs := 4;
     w_time_end := 1000;
     w_time_update := 1000;
     w_time_config := 1000;
     w_sig_startup := false;
     w_iters := [idle_pass 1000; idle_pass 1001; with_signal_in_sleep (idle_pass 1002)];
     w_detach := 0;
     w_unpin_final := 0 |}.

(** The sample run with other answers to [if_nametoindex], to
    [get_map_fd] for the stats map, to the two pinning calls, to the detach
    and to the final unpin, and with another oracle for the loop. *)
Definition sample_world_with
  (index stats_fd unpin_ret pin_ret detach_ret unpin_final_ret : Z)
  (its : list iter_env) : world :=
  {| ENABLE_RULE_LOGGING := ENABLE_RULE_LOGGING sample_world;
     XDP_OBJ_PATH := XDP_OBJ_PATH sample_world;
     XDP_MAP_PIN_DIR := XDP_MAP_PIN_DIR sample_world;
     w_cli := sample_cli;
     w_load_config := (0, sample_cfg);
     w_setrlimit := 0;
     w_if_nametoindex := index;
     w_load_bpf_obj := true;
     w_attach := (0, Some "DRV/native");
     w_map_stats := stats_fd;
     w_map_fwd_rules := 6;
     w_map_fwd_rules_log := 7;
     w_ring_buffer_new := true;
     w_unpin_stale := unpin_ret;
     w_pin := pin_ret;
     w_nprocs := 4;
     w_time_end := 1000;
     w_time_update := 1000;
     w_time_config := 1000;
     w_sig_startup := false;
     w_iters := its;
     w_detach := detach_ret;
     w_unpin_final := unpin_final_ret |}.

(** A run on a machine that has no interface of the configured name:
    [if_nametoindex] answers 0 and the attach to index 0 is refused. *)
Definition unknown_interface_world : world :=
  {| ENABLE_RULE_LOGGING := ENABLE_RULE_LOGGING sample_world;
     XDP_OBJ_PATH := XDP_OBJ_PATH sample_world;
     XDP_MAP_PIN_DIR := XDP_MAP_PIN_DIR sample_world;
     w_cli := sample_cli;
     w_load_config := (0, sample_cfg);
     w_setrlimit := 0;
     w_if_nametoindex := 0;
     w_load_bpf_obj := true;
     w_attach := (-19, None);
     w_map_stats := 5;
     w_map_fwd_rules := 6;
     w_map_fwd_rules_log := 7;
     w_ring_buffer_new := true;
     w_unpin_stale := 0;
     w_pin := 0;
     w_nprocs := 4;
     w_time_end := 1000;
     w_time_update := 1000;
     w_time_config := 1000;
     w_sig_startup := false;
     w_iters := [];
     w_detach := 0;
     w_unpin_final := 0 |}.

(** Loop state with the given two timestamps, otherwise as the sample run
    enters the loop. *)
Definition vars_at (update_check config_check : Z) : loop_vars :=
  {| cfg := sample_cfg;
     cont := true;
     doing_stats := true;
     last_update_check := update_check;
     last_config_check := config_check |}.

(** A pass at time [now] that finds the file with modification time [mtime]
    and in which [load_config], if called, answers [load]. *)
Definition pass (now mtime : Z) (load : Z * config__t) : iter_env :=
  {| ie_cur_time := now;
     ie_stat := Some mtime;
     ie_load_config := load;
     ie_time_reload := now;
     ie_time_check := now;
     ie_calc_stats := 0;
     ie_sig_work := false;
     ie_sig_sleep := false |}.

Definition sample_locals : locals := init_locals sample_world false.

(** The run [w] with other answers to the [unpin_map] that precedes pinning
    and to [pin_map]. *)
Definition with_pin_answers (w : world) (unpin_ret pin_ret : Z) : world :=
  {| ENABLE_RULE_LOGGING := ENABLE_RULE_LOGGING w;
     XDP_OBJ_PATH := XDP_OBJ_PATH w;
     XDP_MAP_PIN_DIR := XDP_MAP_PIN_DIR w;
     w_cli := w_cli w;
     w_load_config := w_load_config w;
     w_setrlimit := w_setrlimit w;
     w_if_nametoindex := w_if_nametoindex w;
     w_load_bpf_obj := w_load_bpf_obj w;
     w_attach := w_attach w;
     w_map_stats := w_map_stats w;
     w_map_fwd_rules := w_map_fwd_rules w;
     w_map_fwd_rules_log := w_map_fwd_rules_log w;
     w_ring_buffer_new := w_ring_buffer_new w;
     w_unpin_stale := unpin_ret;
     w_pin := pin_ret;
     w_nprocs := w_nprocs w;
     w_time_end := w_time_end w;
     w_time_update := w_time_update w;
     w_time_config := w_time_config w;
     w_sig_startup := w_sig_startup w;
     w_iters := w_iters w;
     w_detach := w_detach w;
     w_unpin_final := w_unpin_final w |}.

(** The log line that follows [pin_map] (lines 233-240). *)
Definition pin_report (dir : string) (pin_ret : Z) : call :=
  if pin_ret =? 0
  then log_msg 3 false "BPF map 'map_fwd_rules' pinned to '%s/map_fwd_rules'."
         [AStr dir]
  else log_msg 1 false
         "[WARNING] Failed to pin 'map_fwd_rules' to file system (%d)..."
         [AInt pin_ret].

(** A configuration that differs from the sample in the display interval. *)
Definition slow_cfg : config__t :=
  {| cfg_verbose := 2;
     cfg_log_file := None;
     cfg_interface := Some "eth0";
     cfg_pin_maps := true;
     cfg_update_time := 30;
     cfg_no_stats := false;
     cfg_stats_per_second := false;
     cfg_stdout_update_time := 5000;
     cfg_rules := [] |}.

(** ** Further observations *)

Definition is_stat (c : call) : bool :=
  match c with stat _ => true | _ => false end.

Definition is_update_rules (c : call) : bool :=
  match c with update_fwd_rules _ _ => true | _ => false end.

Definition is_calc_stats (c : call) : bool :=
  match c with calc_stats _ _ _ => true | _ => false end.

Definition is_poll (c : call) : bool :=
  match c with poll_fwd_rules_rb => true | _ => false end.

Definition is_pin_map (c : call) : bool :=
  match c with pin_map _ _ => true | _ => false end.

Definition is_log (c : call) : bool :=
  match c with log_msg _ _ _ _ => true | _ => false end.

Definition is_rb_new (c : call) : bool :=
  match c with ring_buffer__new _ => true | _ => false end.

Definition is_rb_free (c : call) : bool :=
  match c with ring_buffer__free => true | _ => false end.

(** Lines 204-219: a ring buffer exists after startup when rule logging is
    compiled in, the log map was found and [ring_buffer__new] did not
    answer NULL. *)
Definition ring_buffer_created (w : world) : bool :=
  ENABLE_RULE_LOGGING w
  && negb (w_map_fwd_rules_log w <? 0)
  && w_ring_buffer_new w.

(** The calls that take the loaded program, its object or one of its maps,
    other than the load and the attach themselves. *)
Definition acts_on_program (c : call) : bool :=
  match c with
  | get_map_fd _ | ring_buffer__new _ | get_bpf_obj | unpin_map _ _ | pin_map _ _
  | update_fwd_rules _ _ | calc_stats _ _ _ | poll_fwd_rules_rb
  | ring_buffer__free | xdp_program__close => true
  | attach_xdp _ detach _ _ => detach
  | _ => false
  end.

(** The calls of lines 347-360, which follow the detach. *)
Definition shutdown_call (c : call) : bool :=
  match c with
  | log_msg _ _ _ _ | get_bpf_obj | unpin_map _ _ | xdp_program__close => true
  | _ => false
  end.

(** The part of a trace before its first attach (all of it if there is
    none), and the part after its first detach (nothing if there is none). *)
Fixpoint before_attach (t : list call) : list call :=
  match t with
  | [] => []
  | c :: t' => if is_attach c then [] else c :: before_attach t'
  end.

Fixpoint after_detach (t : list call) : list call :=
  match t with
  | [] => []
  | c :: t' => if is_detach c then t' else after_detach t'
  end.

(** The handles and arguments that lines 246, 296 and 315 pass on are those
    resolved at startup. *)
Definition uses_startup_handles (w : world) (c : call) : Prop :=
  match c with
  | update_fwd_rules fd _ => fd = w_map_fwd_rules w /\ 0 <= fd
  | calc_stats fd ncpus _ => fd = w_map_stats w /\ 0 <= fd /\ ncpus = w_nprocs w
  | _ => True
  end.

(** Every [load_config] and every [stat] is on the file and with the
    overrides of the command line. *)
Definition uses_cli_config (w : world) (c : call) : Prop :=
  match c with
  | load_config file ovr =>
    file = cli_cfg_file (w_cli w) /\ ovr = overrides_of_cli (w_cli w)
  | stat file => file = cli_cfg_file (w_cli w)
  | _ => True
  end.

(** Lines 268-271 and 302-305: whenever the configuration has stats enabled,
    [doing_stats] is set. *)
Definition stats_flag_set (v : loop_vars) : Prop :=
  cfg_no_stats (cfg v) = false -> doing_stats v = true.

(** A clock that does not run backwards: the readings of the passes, taken
    in program order, never decrease, starting from [t0]. *)
Fixpoint monotone_clock (t0 : Z) (its : list iter_env) : Prop :=
  match its with
  | [] => True
  | ie :: its' =>
    t0 <= ie_cur_time ie
    /\ ie_cur_time ie <= ie_time_reload ie
    /\ ie_time_reload ie <= ie_time_check ie
    /\ monotone_clock (ie_time_check ie) its'
  end.

Definition with_signal_in_work (ie : iter_env) : iter_env :=
  {| ie_cur_time := ie_cur_time ie;
     ie_stat := ie_stat ie;
     ie_load_config := ie_load_config ie;
     ie_time_reload := ie_time_reload ie;
     ie_time_check := ie_time_check ie;
     ie_calc_stats := ie_calc_stats ie;
     ie_sig_work := true;
     ie_sig_sleep := ie_sig_sleep ie |}.

(** The sample configuration with stats switched off, and with auto-update
    switched off. *)
Definition quiet_cfg : config__t :=
  {| cfg_verbose := 2;
     cfg_log_file := None;
     cfg_interface := Some "eth0";
     cfg_pin_maps := false;
     cfg_update_time := 30;
     cfg_no_stats := true;
     cfg_stats_per_second := false;
     cfg_stdout_update_time := 1000;
     cfg_rules := [] |}.

Definition static_cfg : config__t :=
  {| cfg_verbose := 2;
     cfg_log_file := None;
     cfg_interface := Some "eth0";
     cfg_pin_maps := true;
     cfg_update_time := 0;
     cfg_no_stats := false;
     cfg_stats_per_second := false;
     cfg_stdout_update_time := 1000;
     cfg_rules := [] |}.

(** The run [w] with other command-line flags for help and list, another
    answer of the first [load_config], and a signal before the loop or not. *)
Definition with_startup (w : world) (help list_flag : bool)
  (load : Z * config__t) (early_signal : bool) : world :=
  {| ENABLE_RULE_LOGGING := ENABLE_RULE_LOGGING w;
     XDP_OBJ_PATH := XDP_OBJ_PATH w;
     XDP_MAP_PIN_DIR := XDP_MAP_PIN_DIR w;
     w_cli :=
       {| cli_cfg_file := cli_cfg_file (w_cli w);
          cli_help := help;
          cli_list := list_flag;
          cli_skb := cli_skb (w_cli w);
          cli_offload := cli_offload (w_cli w);
          cli_time := cli_time (w_cli w);
          cli_verbose := cli_verbose (w_cli w);
          cli_log_file := cli_log_file (w_cli w);
          cli_interface := cli_interface (w_cli w);
          cli_pin_maps := cli_pin_maps (w_cli w);
          cli_update_time := cli_update_time (w_cli w);
          cli_no_stats := cli_no_stats (w_cli w);
          cli_stats_per_second := cli_stats_per_second (w_cli w);
          cli_stdout_update_time := cli_stdout_update_time (w_cli w) |};
     w_load_config := load;
     w_setrlimit := w_setrlimit w;
     w_if_nametoindex := w_if_nametoindex w;
     w_load_bpf_obj := w_load_bpf_obj w;
     w_attach := w_attach w;
     w_map_stats := w_map_stats w;
     w_map_fwd_rules := w_map_fwd_rules w;
     w_map_fwd_rules_log := w_map_fwd_rules_log w;
     w_ring_buffer_new := w_ring_buffer_new w;
     w_unpin_stale := w_unpin_stale w;
     w_pin := w_pin w;
     w_nprocs := w_nprocs w;
     w_time_end := w_time_end w;
     w_time_update := w_time_update w;
     w_time_config := w_time_config w;
     w_sig_startup := early_signal;
     w_iters := w_iters w;
     w_detach := w_detach w;
     w_unpin_final := w_unpin_final w |}.

(** The attach and the detach are on the interface index of line 130 and
    with the mode flags of the command line. *)
Definition same_attach_target (w : world) (c : call) : Prop :=
  match c with
  | attach_xdp i _ skb offload =>
    i = to_int (w_if_nametoindex w)
    /\ skb = cli_skb (w_cli w)
    /\ offload = cli_offload (w_cli w)
  | _ => True
  end.

(** The runs that end with [EXIT_SUCCESS] if they end: help, list after a
    successful load, and a run that got into the loop and whose detach
    succeeded. *)
Definition exits_cleanly (w : world) : bool :=
  cli_help (w_cli w)
  || ((fst (w_load_config w) =? 0) && cli_list (w_cli w))
  || (startup_ok w && (w_detach w =? 0)).

(** The run [w] in a build with rule logging compiled in. *)
Definition with_rule_logging (w : world) : world :=
  {| ENABLE_RULE_LOGGING := true;
     XDP_OBJ_PATH := XDP_OBJ_PATH w;
     XDP_MAP_PIN_DIR := XDP_MAP_PIN_DIR w;
     w_cli := w_cli w;
     w_load_config := w_load_config w;
     w_setrlimit := w_setrlimit w;
     w_if_nametoindex := w_if_nametoindex w;
     w_load_bpf_obj := w_load_bpf_obj w;
     w_attach := w_attach w;
     w_map_stats := w_map_stats w;
     w_map_fwd_rules := w_map_fwd_rules w;
     w_map_fwd_rules_log := w_map_fwd_rules_log w;
     w_ring_buffer_new := w_ring_buffer_new w;
     w_unpin_stale := w_unpin_stale w;
     w_pin := w_pin w;
     w_nprocs := w_nprocs w;
     w_time_end := w_time_end w;
     w_time_update := w_time_update w;
     w_time_config := w_time_config w;
     w_sig_startup := w_sig_startup w;
     w_iters := w_iters w;
     w_detach := w_detach w;
     w_unpin_final := w_unpin_final w |}.

(** ** Interrupted sleeps and runs on the clock *)

Definition is_unpin_map (c : call) : bool :=
  match c with unpin_map _ _ => true | _ => false end.

(** With a handler installed by [signal] (lines 249-250), a [usleep] during
    which the signal is handled returns at once with EINTR.  [us] are the
    arguments of the sleeps of a trace, in order; [sigs] says for each of
    them whether a signal was handled during it and, if so, how many
    microseconds after the sleep began.  The value is the time those sleeps
    took. *)
Fixpoint elapsed_with_signals_us (us : list Z) (sigs : list (option Z)) : Z :=
  match us with
  | [] => 0
  | u :: us' =>
    match sigs with
    | Some at_us :: sigs' =>
      Z.min u (Z.max 0 at_us) + elapsed_with_signals_us us' sigs'
    | None :: sigs' => u + elapsed_with_signals_us us' sigs'
    | [] => u + elapsed_with_signals_us us' []
    end
  end.

(** The signals of an oracle as [elapsed_with_signals_us] reads them: the
    passes with a signal during the sleep get it [at_us] microseconds into
    the sleep. *)
Definition signal_offsets (at_us : Z) (its : list iter_env) : list (option Z) :=
  map (fun ie => if ie_sig_sleep ie then Some at_us else None) its.



(** ** Proof automation *)

(** Unfolding of the monadic code down to pairs and list appends. *)
Ltac unfold_m :=
  unfold bind, do, when, ret, return_, trace, result in *.

(** Membership in a computed trace. *)
Ltac find_in := repeat (first [left; reflexivity | right]).

(** Case analysis on the tests that remain in a goal. *)
Ltac split_ifs :=
  repeat match goal with
         | |- context [if ?b then _ else _] => destruct b; cbn
         end.

(** A guard of [bring_up] that returns: the rest is case analysis. *)
Ltac abort_now :=
  unfold_m; cbn;
  repeat match goal with
         | |- context [if ?b then _ else _] => destruct b; cbn
         | |- context [match ?m with Some _ => _ | None => _ end] => destruct m; cbn
         end;
  eexists _, _; (split; [reflexivity | split; reflexivity]).

(** The guards of [bring_up] taken in program order; [tac] closes each
    branch on its computed trace. *)
Ltac bring_up_cases w tac :=
  unfold bring_up, open_rule_log;
  let r0 := fresh "r0" in
  let c0 := fresh "c0" in
  let r1 := fresh "r1" in
  let m1 := fresh "m1" in
  destruct (w_load_config w) as [r0 c0]; destruct (w_attach w) as [r1 m1];
  cbn [fst snd] in *;
  destruct (cli_help (w_cli w)) eqn:?; [tac|];
  destruct (r0 =? 0) eqn:?; [|tac];
  destruct (cli_list (w_cli w)) eqn:?; [tac|];
  destruct (cfg_interface c0) eqn:?; [|tac];
  destruct (w_setrlimit w =? 0) eqn:?; [|tac];
  destruct (to_int (w_if_nametoindex w) <? 0) eqn:?; [tac|];
  destruct (w_load_bpf_obj w) eqn:?; [|tac];
  destruct (r1 =? 0) eqn:?; [|tac];
  destruct (w_map_stats w <? 0) eqn:?; [tac|];
  destruct (w_map_fwd_rules w <? 0) eqn:?; [tac|];
  tac.

(** Reduce a monadic term to its computed trace, splitting on the tests
    that remain. *)
Ltac crunch_trace :=
  unfold_m; cbn;
  repeat match goal with
         | |- context [if negb ?b then _ else _] => destruct b eqn:?; cbn
         | |- context [if ?b then _ else _] => destruct b eqn:?; cbn
         | |- context [match ?m with Some _ => _ | None => _ end] => destruct m; cbn
         end.

(** Close a [Forall] over a computed trace. *)
Ltac forall_calls :=
  repeat (first [apply Forall_nil | apply Forall_cons]); cbn; repeat split; auto.

(** * Properties *)

(** ** The monad and the trace observations *)

Lemma bind_continue {A B} (t : list call) (a : A) (f : A -> M B) :
  bind (t, Continue a) f = (t ++ trace (f a), result (f a)).
Proof. unfold bind, trace, result. destruct (f a); reflexivity. Qed.

Lemma sleeps_app (t1 t2 : list call) : sleeps (t1 ++ t2) = sleeps t1 ++ sleeps t2.
Proof.
  induction t1 as [|c t1 IH]; [reflexivity|].
  destruct c; simpl; rewrite IH; reflexivity.
Qed.

Lemma elapsed_us_app (t1 t2 : list call) :
  elapsed_us (t1 ++ t2) = elapsed_us t1 + elapsed_us t2.
Proof.
  unfold elapsed_us. rewrite sleeps_app.
  induction (sleeps t1) as [|z zs IH]; simpl; [reflexivity | lia].
Qed.

Lemma count_app (p : call -> bool) (t1 t2 : list call) :
  count p (t1 ++ t2) = (count p t1 + count p t2)%nat.
Proof. unfold count. rewrite filter_app, length_app. reflexivity. Qed.

(** ** One pass through the loop body *)

Section Loop.

Variable w : world.
Variable l : locals.

Lemma auto_update_runs (ie : iter_env) (v : loop_vars) :
  exists t v1,
    auto_update w l ie v = (t, Continue v1)
    /\ sleeps t = []
    /\ count is_detach t = 0%nat
    /\ cont v1 = cont v.
Proof.
  unfold auto_update, reload.
  destruct (check_due v (ie_cur_time ie));
    [|eexists _, _; split; [reflexivity | repeat split]].
  destruct (file_changed ie v), (ie_load_config ie) as [r c], (r =? 0);
    unfold_m; simpl; eexists _, _; (split; [reflexivity | repeat split]).
Qed.

Lemma show_stats_runs (ie : iter_env) (v : loop_vars) :
  exists t,
    show_stats l ie v = (t, Continue tt)
    /\ sleeps t = []
    /\ count is_detach t = 0%nat.
Proof.
  unfold show_stats.
  destruct (cfg_no_stats (cfg v)), (ie_calc_stats ie =? 0);
    unfold_m; simpl; eexists; (split; [reflexivity | split; reflexivity]).
Qed.

Lemma loop_body_break (ie : iter_env) (v : loop_vars) :
  past_end_time l ie = true ->
  loop_body w l ie v = ([time_NULL], Continue Break).
Proof.
  unfold past_end_time, loop_body. intros H. unfold_m. rewrite H. reflexivity.
Qed.

Lemma loop_body_next (ie : iter_env) (v : loop_vars) :
  past_end_time l ie = false ->
  exists t v',
    loop_body w l ie v = (t ++ [usleep (sleep_time l)], Continue (Next v'))
    /\ sleeps t = []
    /\ count is_detach t = 0%nat
    /\ cont v' = (if ie_sig_sleep ie then false
                  else if ie_sig_work ie then false else cont v).
Proof.
  unfold past_end_time, loop_body. intros H.
  destruct (auto_update_runs ie v) as (t1 & v1 & E1 & S1 & D1 & C1).
  destruct (show_stats_runs ie v1) as (t2 & E2 & S2 & D2).
  unfold bind at 1. unfold do at 1. rewrite H, E1.
  rewrite bind_continue, E2. cbn [trace result fst snd].
  rewrite bind_continue.
  exists (time_NULL :: t1 ++ t2 ++ (if ENABLE_RULE_LOGGING w then [poll_fwd_rules_rb] else [])).
  eexists. split; [|split; [|split]].
  - destruct (ENABLE_RULE_LOGGING w); unfold_m; cbn;
      rewrite <- ?app_assoc; cbn; rewrite <- ?app_assoc; reflexivity.
  - cbn. rewrite !sleeps_app, S1, S2. destruct (ENABLE_RULE_LOGGING w); reflexivity.
  - change (time_NULL :: ?x) with ([time_NULL] ++ x).
    rewrite !count_app, D1, D2. destruct (ENABLE_RULE_LOGGING w); reflexivity.
  - cbn. rewrite <- C1. destruct (ie_sig_sleep ie), (ie_sig_work ie); reflexivity.
Qed.

(** ** The control loop *)

Lemma control_loop_flag (its : list iter_env) (v : loop_vars) :
  cont v = false -> control_loop w l its v = ([], Continue v).
Proof. intros H. destruct its; simpl; rewrite H; reflexivity. Qed.

Lemma control_loop_break (ie : iter_env)
  (its : list iter_env) (v : loop_vars) :
  cont v = true -> past_end_time l ie = true ->
  control_loop w l (ie :: its) v = ([time_NULL], Continue v).
Proof.
  intros Hc Hp. simpl. rewrite Hc, (loop_body_break ie v Hp). reflexivity.
Qed.

Lemma control_loop_next (ie : iter_env)
  (its : list iter_env) (v v' : loop_vars) (t : list call) :
  cont v = true -> loop_body w l ie v = (t, Continue (Next v')) ->
  control_loop w l (ie :: its) v
  = (t ++ trace (control_loop w l its v'), result (control_loop w l its v')).
Proof.
  intros Hc Hb. cbn [control_loop]. rewrite Hc, Hb.
  unfold bind, trace, result. destruct (control_loop w l its v'); reflexivity.
Qed.

(** The loop never returns from [main] by itself, sleeps for [sleep_time]
    only, and does not detach. *)
Lemma control_loop_trace (its : list iter_env) :
  forall v,
    Forall (eq (sleep_time l)) (sleeps (trace (control_loop w l its v)))
    /\ count is_detach (trace (control_loop w l its v)) = 0%nat
    /\ (forall code, result (control_loop w l its v) <> Return code).
Proof.
  induction its as [|ie its IH]; intros v.
  - simpl. destruct (cont v); cbn; repeat split; try constructor; discriminate.
  - destruct (cont v) eqn:Hc.
    2:{ rewrite control_loop_flag by assumption. cbn.
        repeat split; try constructor; discriminate. }
    destruct (past_end_time l ie) eqn:Hp.
    + rewrite control_loop_break by assumption. cbn.
      repeat split; try constructor; discriminate.
    + destruct (loop_body_next ie v Hp) as (t & v' & E & S & D & _).
      rewrite (control_loop_next _ _ _ _ _ Hc E). cbn [trace result fst snd].
      destruct (IH v') as (F & D' & R).
      rewrite !sleeps_app, S, !count_app, D, D'. cbn. repeat split; auto.
Qed.

End Loop.

(** ** Startup and cleanup *)

Lemma bring_up_runs (w : world) :
  startup_ok w = true ->
  exists t rb0,
    bring_up w = (t, Continue rb0)
    /\ sleeps t = []
    /\ count is_detach t = 0%nat
    /\ count is_attach t = 1%nat.
Proof.
  unfold startup_ok, attach_ok, lookup_reached. rewrite !andb_true_iff, !negb_true_iff.
  intros (((((((((H1 & H2) & H3) & H4) & H5) & H6) & H7) & H8) & H9) & H10).
  unfold bring_up, open_rule_log.
  destruct (w_load_config w) as [r0 c0]. destruct (w_attach w) as [r1 m1].
  cbn [fst snd] in *.
  rewrite H1, H2, H3. destruct (cfg_interface c0) as [iface|]; [|discriminate].
  rewrite H5, H6, H7, H8, H9, H10.
  unfold_m. cbn.
  destruct (0 <? cfg_verbose c0), m1, (ENABLE_RULE_LOGGING w),
    (w_map_fwd_rules_log w <? 0);
    cbn; eexists _, _; (split; [reflexivity | repeat split]).
Qed.

Lemma bring_up_aborts (w : world) :
  startup_ok w = false ->
  exists t code,
    bring_up w = (t, Return code)
    /\ sleeps t = []
    /\ count is_detach t = 0%nat.
Proof.
  unfold startup_ok, attach_ok, lookup_reached, bring_up.
  destruct (w_load_config w) as [r0 c0]. destruct (w_attach w) as [r1 m1].
  cbn [fst snd].
  destruct (cli_help (w_cli w)); [intros _; abort_now|].
  destruct (r0 =? 0); [|intros _; abort_now].
  destruct (cli_list (w_cli w)); [intros _; abort_now|].
  destruct (cfg_interface c0) as [iface|]; [|intros _; abort_now].
  destruct (w_setrlimit w =? 0); [|intros _; abort_now].
  destruct (to_int (w_if_nametoindex w) <? 0); [intros _; abort_now|].
  destruct (w_load_bpf_obj w); [|intros _; abort_now].
  destruct (r1 =? 0); [|intros _; abort_now].
  destruct (w_map_stats w <? 0); [intros _; abort_now|].
  destruct (w_map_fwd_rules w <? 0); [intros _; abort_now|].
  cbn. discriminate.
Qed.

(** The pinning step after the stale-pin cleanup: the exact calls. *)
Lemma pin_needed_maps_trace (w : world) (c : config__t) :
  pin_needed_maps w c
  = (if cfg_pin_maps c then
       [log_msg 2 false "Pinning BPF maps..." [];
        get_bpf_obj;
        unpin_map (XDP_MAP_PIN_DIR w) "map_fwd_rules";
        pin_map (XDP_MAP_PIN_DIR w) "map_fwd_rules";
        if w_pin w =? 0
        then log_msg 3 false "BPF map 'map_fwd_rules' pinned to '%s/map_fwd_rules'."
               [AStr (XDP_MAP_PIN_DIR w)]
        else log_msg 1 false
               "[WARNING] Failed to pin 'map_fwd_rules' to file system (%d)..."
               [AInt (w_pin w)]]
     else [],
     Continue tt).
Proof.
  unfold pin_needed_maps, unpin_needed_maps.
  destruct (cfg_pin_maps c), (w_unpin_stale w =? 0), (w_pin w =? 0); reflexivity.
Qed.

Lemma enter_loop_runs (w : world) (rb0 : bool) :
  exists t,
    enter_loop w rb0
    = (log_msg 2 false "Updating rules..." []
       :: update_fwd_rules (w_map_fwd_rules w) (snd (w_load_config w)) :: t,
       Continue (init_locals w rb0, init_vars w))
    /\ sleeps t = []
    /\ count is_detach t = 0%nat
    /\ count is_attach t = 0%nat.
Proof.
  unfold enter_loop. destruct (0 <? cli_time (w_cli w));
    unfold_m; cbn; eexists; (split; [reflexivity | repeat split]).
Qed.

Lemma startup_runs (w : world) :
  startup_ok w = true ->
  exists t rb0,
    startup w = (t, Continue (init_locals w rb0, init_vars w))
    /\ sleeps t = []
    /\ count is_detach t = 0%nat
    /\ count is_attach t = 1%nat.
Proof.
  intros H. destruct (bring_up_runs w H) as (t0 & rb0 & E0 & S0 & D0 & A0).
  destruct (enter_loop_runs w rb0) as (t2 & E2 & S2 & D2 & A2).
  unfold startup. rewrite E0, bind_continue, pin_needed_maps_trace.
  rewrite bind_continue, E2. cbn [trace result fst snd].
  eexists _, rb0. split; [reflexivity|].
  rewrite !sleeps_app, !count_app, S0, D0, A0.
  destruct (cfg_pin_maps (snd (w_load_config w))), (w_pin w =? 0);
    cbn; rewrite ?S2; unfold count in *; cbn; rewrite ?D2, ?A2; repeat split.
Qed.

Lemma startup_aborts (w : world) :
  startup_ok w = false ->
  exists t code,
    startup w = (t, Return code)
    /\ sleeps t = []
    /\ count is_detach t = 0%nat.
Proof.
  intros H. destruct (bring_up_aborts w H) as (t & code & E & S & D).
  unfold startup. rewrite E. exists t, code. repeat split; assumption.
Qed.

Lemma cleanup_detach_failed (w : world) (l : locals) (v : loop_vars) :
  w_detach w <> 0 ->
  exists t,
    cleanup w l v = (t, Return EXIT_FAILURE)
    /\ sleeps t = []
    /\ count is_detach t = 1%nat
    /\ count is_close t = 0%nat
    /\ existsb is_error_report t = true.
Proof.
  intros H. apply Z.eqb_neq in H. unfold cleanup. rewrite H.
  unfold_m. cbn.
  destruct (ENABLE_RULE_LOGGING w), (rb l); cbn;
    eexists; (split; [reflexivity | repeat split]).
Qed.

Lemma cleanup_detach_ok (w : world) (l : locals) (v : loop_vars) :
  w_detach w = 0 ->
  exists t,
    cleanup w l v = (t, Return EXIT_SUCCESS)
    /\ sleeps t = []
    /\ count is_detach t = 1%nat
    /\ count is_close t = 1%nat.
Proof.
  intros H. unfold cleanup, unpin_needed_maps. rewrite H.
  unfold_m. cbn.
  destruct (ENABLE_RULE_LOGGING w), (rb l), (cfg_pin_maps (cfg v)),
    (w_unpin_final w =? 0); cbn;
    eexists; (split; [reflexivity | repeat split]).
Qed.

(** ** The run as a whole *)

Lemma main_after_startup (w : world) (t : list call) (l : locals) (v : loop_vars) :
  startup w = (t, Continue (l, v)) ->
  main w
  = (t ++ trace (v' <- control_loop w l (w_iters w) v ;; cleanup w l v'),
     result (v' <- control_loop w l (w_iters w) v ;; cleanup w l v')).
Proof.
  intros E. unfold main. rewrite E. unfold bind at 1. cbv beta iota.
  destruct (bind (control_loop w l (w_iters w) v) _); reflexivity.
Qed.

(** A run that passes the startup guards and returns has detached exactly
    once; one that fails a guard has not detached at all. *)
Lemma main_detach_count (w : world) :
  count is_detach (trace (main w))
  = match exit_status (main w) with
    | Some _ => if startup_ok w then 1%nat else 0%nat
    | None => 0%nat
    end.
Proof.
  destruct (startup_ok w) eqn:Hok.
  - destruct (startup_runs w Hok) as (t & rb0 & E & _ & D & _).
    rewrite (main_after_startup _ _ _ _ E). unfold exit_status.
    cbn [trace result fst snd]. rewrite count_app, D.
    destruct (control_loop_trace w (init_locals w rb0) (w_iters w) (init_vars w))
      as (_ & DL & R).
    destruct (control_loop w (init_locals w rb0) (w_iters w) (init_vars w))
      as [tl [code| |v']] eqn:EL; cbn [trace result fst snd] in *.
    + exfalso. exact (R code eq_refl).
    + cbn. exact DL.
    + rewrite bind_continue. cbn [fst snd trace result]. rewrite count_app, DL.
      destruct (Z.eq_dec (w_detach w) 0) as [Hd|Hd].
      * destruct (cleanup_detach_ok w (init_locals w rb0) v' Hd) as (tc & Ec & _ & Dc & _).
        rewrite Ec. cbn. exact Dc.
      * destruct (cleanup_detach_failed w (init_locals w rb0) v' Hd)
          as (tc & Ec & _ & Dc & _).
        rewrite Ec. cbn. exact Dc.
  - destruct (startup_aborts w Hok) as (t & code & E & _ & D).
    unfold main, exit_status. rewrite E. cbn. exact D.
Qed.

(** ** C1 *)

(** After a successful attach, a missing stats or rules map ends the run with
    [EXIT_FAILURE] and without a detach. *)
Lemma missing_map_skips_detach (w : world) :
  attach_ok w = true ->
  (w_map_stats w <? 0) || (w_map_fwd_rules w <? 0) = true ->
  exit_status (main w) = Some EXIT_FAILURE
  /\ count is_attach (trace (main w)) = 1%nat
  /\ count is_detach (trace (main w)) = 0%nat.
Proof.
  unfold attach_ok, lookup_reached. rewrite !andb_true_iff, !negb_true_iff.
  intros (((((((H1 & H2) & H3) & H4) & H5) & H6) & H7) & H8) Hmap.
  unfold main, startup, bring_up, exit_status.
  destruct (w_load_config w) as [r0 c0]. destruct (w_attach w) as [r1 m1].
  cbn [fst snd] in *.
  rewrite H1, H2, H3. destruct (cfg_interface c0) as [iface|]; [|discriminate].
  rewrite H5, H6, H7, H8.
  destruct (w_map_stats w <? 0); [|cbn in Hmap; rewrite Hmap];
    destruct (0 <? cfg_verbose c0), m1; unfold_m; cbn; repeat split.
Qed.

(** C1 (fails on the code).  The claim: whenever the attach succeeded, detach
    is invoked exactly once before the process exits, also when a mandatory
    table handle is missing.  In the run below the attach succeeds and
    [get_map_fd] answers -1 for the stats map: [main] returns [EXIT_FAILURE]
    at line 187 having attached once and detached never. *)
Theorem C1_missing_map_exits_without_detach :
  let w := sample_world_with 2 (-1) 0 0 0 0 [] in
  fst (w_attach w) = 0
  /\ w_map_stats w < 0
  /\ exit_status (main w) = Some EXIT_FAILURE
  /\ count is_attach (trace (main w)) = 1%nat
  /\ count is_detach (trace (main w)) = 0%nat.
Proof. vm_compute. repeat split; reflexivity. Qed.

(** ** C3 *)

(** The failure value of [if_nametoindex] is 0; the test of line 132 is
    [ifidx < 0], which no index below 2^31 satisfies. *)
Lemma ifidx_guard_never_fires (index : Z) :
  0 <= index < 2 ^ 31 -> (to_int index <? 0) = false.
Proof.
  intros H. unfold to_int. apply Z.ltb_ge.
  rewrite Z.mod_small by lia. lia.
Qed.

Lemma bind_trace_prefix {A B} (m : M A) (f : A -> M B) :
  exists rest, trace (bind m f) = trace m ++ rest.
Proof.
  destruct m as [t [code| |a]]; cbn.
  - exists []. rewrite app_nil_r. reflexivity.
  - exists []. rewrite app_nil_r. reflexivity.
  - destruct (f a) as [t' r]. exists t'. reflexivity.
Qed.

Lemma main_trace_prefix (w : world) :
  exists rest, trace (main w) = trace (bring_up w) ++ rest.
Proof.
  unfold main, startup.
  destruct (bind_trace_prefix
              (rb0 <- bring_up w ;;
               pin_needed_maps w (snd (w_load_config w)) ;;; enter_loop w rb0)
              (fun lv => let '(l, v) := lv in
                         v' <- control_loop w l (w_iters w) v ;; cleanup w l v'))
    as (r1 & ->).
  destruct (bind_trace_prefix (bring_up w)
              (fun rb0 => pin_needed_maps w (snd (w_load_config w)) ;;;
                          enter_loop w rb0))
    as (r2 & ->).
  exists (r2 ++ r1). rewrite app_assoc. reflexivity.
Qed.

(** Whenever the run gets to [if_nametoindex] and the lookup fails (answer
    0), the program image is loaded all the same. *)
Lemma failed_lookup_still_loads (w : world) :
  lookup_reached w = true ->
  w_if_nametoindex w = 0 ->
  In (load_bpf_obj (XDP_OBJ_PATH w)) (trace (main w)).
Proof.
  unfold lookup_reached. rewrite !andb_true_iff, !negb_true_iff.
  intros ((((H1 & H2) & H3) & H4) & H5) H0.
  destruct (main_trace_prefix w) as (rest & ->). apply in_or_app. left.
  unfold bring_up, open_rule_log.
  destruct (w_load_config w) as [r0 c0]. destruct (w_attach w) as [r1 m1].
  cbn [fst snd] in *.
  rewrite H1, H2, H3. destruct (cfg_interface c0) as [iface|]; [|discriminate].
  rewrite H5, H0.
  change (to_int 0 <? 0) with false. cbv iota.
  destruct (0 <? cfg_verbose c0), (w_load_bpf_obj w);
    unfold_m; cbn; try (find_in; fail);
    destruct (r1 =? 0), m1; cbn; try (find_in; fail);
    destruct (w_map_stats w <? 0); cbn; try (find_in; fail);
    destruct (w_map_fwd_rules w <? 0); cbn; try (find_in; fail);
    destruct (ENABLE_RULE_LOGGING w); cbn; try (find_in; fail);
    destruct (w_map_fwd_rules_log w <? 0); cbn; find_in.
Qed.

(** The abort of lines 132-137 as written: it is taken when the index, read
    as an [int], is negative, and then nothing is loaded. *)
Lemma negative_ifidx_aborts_before_load (w : world) :
  lookup_reached w = true ->
  to_int (w_if_nametoindex w) < 0 ->
  exit_status (main w) = Some EXIT_FAILURE
  /\ count is_lookup_error (trace (main w)) = 1%nat
  /\ count is_load_bpf_obj (trace (main w)) = 0%nat.
Proof.
  unfold lookup_reached. rewrite !andb_true_iff, !negb_true_iff.
  intros ((((H1 & H2) & H3) & H4) & H5) Hneg. apply Z.ltb_lt in Hneg.
  unfold main, startup, bring_up, exit_status.
  destruct (w_load_config w) as [r0 c0]. cbn [fst snd] in *.
  rewrite H1, H2, H3. destruct (cfg_interface c0) as [iface|]; [|discriminate].
  rewrite H5, Hneg.
  destruct (0 <? cfg_verbose c0); unfold_m; cbn; repeat split; reflexivity.
Qed.

(** C3 (fails on the code).  The claim: when the interface name cannot be
    resolved, startup is aborted with failure status before the program image
    is loaded.  In the run below [if_nametoindex] answers 0, its failure
    value: the error of line 134 is not reported, the image is loaded and an
    attach to index 0 is attempted; the run fails only there, at line 170. *)
Theorem C3_unresolved_interface_still_loads :
  let w := unknown_interface_world in
  w_if_nametoindex w = 0
  /\ count is_lookup_error (trace (main w)) = 0%nat
  /\ count is_load_bpf_obj (trace (main w)) = 1%nat
  /\ In (attach_xdp 0 false 0 0) (trace (main w))
  /\ last (trace (main w)) parse_cli
     = log_msg 0 true
         "[ERROR] Failed to attach XDP program to interface '%s' using available modes (%d).\n"
         [AStr "eth0"; AInt (-19)]
  /\ exit_status (main w) = Some EXIT_FAILURE.
Proof.
  vm_compute. repeat split; try reflexivity; find_in.
Qed.

(** ** C4 *)

(** C4 (as stated, fails on the code).  The claim has the program handle
    released even when the detach fails.  In the run below the loop ends on a
    signal and the detach answers -1: [main] returns [EXIT_FAILURE] from line
    344 and [xdp_program__close] is never called. *)
Lemma C4_release_skipped_when_detach_fails :
  let w := sample_world_with 2 5 0 0 (-1) 0 [with_signal_in_sleep (idle_pass 1000)] in
  w_detach w <> 0
  /\ count is_detach (trace (main w)) = 1%nat
  /\ exit_status (main w) = Some EXIT_FAILURE
  /\ existsb is_close (trace (main w)) = false.
Proof. vm_compute. repeat split; try reflexivity. discriminate. Qed.

(** C4 (amended).  In the cleanup of lines 328-363 the exit status is success
    exactly when the detach succeeds; a failed detach is reported as an error
    and ends the run at once, so the program handle is released exactly when
    the detach succeeds, and the unpin is attempted exactly when the detach
    succeeded and pinning is on; a failed unpin only adds the warning of line
    40 and changes neither the release nor the exit status. *)
Theorem C4_cleanup_outcome (w : world) (l : locals) (v : loop_vars) :
  result (cleanup w l v)
  = Return (if w_detach w =? 0 then EXIT_SUCCESS else EXIT_FAILURE)
  /\ count is_detach (trace (cleanup w l v)) = 1%nat
  /\ count is_close (trace (cleanup w l v))
     = (if w_detach w =? 0 then 1%nat else 0%nat)
  /\ existsb is_error_report (trace (cleanup w l v)) = negb (w_detach w =? 0)
  /\ existsb is_unpin_warning (trace (cleanup w l v))
     = (w_detach w =? 0) && cfg_pin_maps (cfg v) && negb (w_unpin_final w =? 0)
  /\ count is_warning (trace (cleanup w l v))
     = count is_unpin_warning (trace (cleanup w l v))
  /\ count is_unpin_map (trace (cleanup w l v))
     = (if (w_detach w =? 0) && cfg_pin_maps (cfg v) then 1%nat else 0%nat).
Proof.
  unfold cleanup, unpin_needed_maps.
  destruct (w_detach w =? 0), (ENABLE_RULE_LOGGING w), (rb l),
    (cfg_pin_maps (cfg v)), (w_unpin_final w =? 0);
    unfold_m; cbn; repeat split; reflexivity.
Qed.

(** ** C2 *)

Lemma reloads_spec (w : world) (l : locals) (ie : iter_env) (v : loop_vars) :
  reloads w l ie v
  = negb (past_end_time l ie) && check_due v (ie_cur_time ie) && file_changed ie v.
Proof.
  unfold reloads, loop_body, auto_update, reload, show_stats, past_end_time.
  destruct ((0 <? end_time l) && (end_time l <=? ie_cur_time ie));
    [reflexivity|].
  destruct (check_due v (ie_cur_time ie)), (file_changed ie v),
    (ie_load_config ie) as [r c], (r =? 0);
    unfold_m; cbn; split_ifs; reflexivity.
Qed.

(** C2 (as stated, fails on the code).  The claim asks for a reload once at
    least the interval has elapsed.  Interval 30, last check at 0, now 30,
    file modified at 100 and last reload at 0: the interval is positive, 30
    seconds have elapsed, the file is newer, and the pass does not reload. *)
Lemma C2_no_reload_at_exact_interval :
  let v := vars_at 0 0 in
  let ie := pass 30 100 (0, sample_cfg) in
  past_end_time sample_locals ie = false
  /\ (0 < cfg_update_time (cfg v)
      /\ cfg_update_time (cfg v) <= ie_cur_time ie - last_update_check v
      /\ exists mtime, ie_stat ie = Some mtime /\ last_config_check v < mtime)
  /\ reloads sample_world sample_locals ie v = false.
Proof.
  cbv zeta. split; [reflexivity|]. split; [|reflexivity].
  cbn. repeat split; try lia. exists 100. split; [reflexivity | lia].
Qed.

(** C2 (amended).  In every pass that gets beyond the end-time test, the
    configuration is reloaded if and only if the reload interval is positive,
    more than that many seconds have elapsed since the last check, and the
    file's modification time is strictly newer than the time of the last
    reload. *)
Theorem C2_reload_iff (w : world) (l : locals) (ie : iter_env) (v : loop_vars) :
  past_end_time l ie = false ->
  (reloads w l ie v = true
   <-> 0 < cfg_update_time (cfg v)
       /\ cfg_update_time (cfg v) < ie_cur_time ie - last_update_check v
       /\ exists mtime, ie_stat ie = Some mtime /\ last_config_check v < mtime).
Proof.
  intros Hp. rewrite reloads_spec, Hp. cbn [negb andb].
  unfold check_due, file_changed.
  rewrite !andb_true_iff, !Z.ltb_lt. split.
  - intros [[H1 H2] H3]. repeat split; try assumption.
    destruct (ie_stat ie) as [m|]; [|discriminate].
    exists m. split; [reflexivity | apply Z.ltb_lt; assumption].
  - intros (H1 & H2 & m & Hm & H3). rewrite Hm.
    repeat split; try assumption. apply Z.ltb_lt; assumption.
Qed.

Lemma C2_reload_iff_witness :
  past_end_time sample_locals (pass 31 100 (0, sample_cfg)) = false
  /\ (reloads sample_world sample_locals (pass 31 100 (0, sample_cfg)) (vars_at 0 0) = true
      <-> 0 < cfg_update_time (cfg (vars_at 0 0))
          /\ cfg_update_time (cfg (vars_at 0 0))
             < ie_cur_time (pass 31 100 (0, sample_cfg)) - last_update_check (vars_at 0 0)
          /\ exists mtime,
               ie_stat (pass 31 100 (0, sample_cfg)) = Some mtime
               /\ last_config_check (vars_at 0 0) < mtime).
Proof.
  split; [reflexivity|].
  apply (C2_reload_iff sample_world sample_locals (pass 31 100 (0, sample_cfg)) (vars_at 0 0)).
  reflexivity.
Defined.

(** ** C5 and C10 *)

(** A pass in which the update check is due: the new timestamps and the new
    configuration. *)
Lemma loop_body_due (w : world) (l : locals) (ie : iter_env) (v : loop_vars) :
  past_end_time l ie = false ->
  check_due v (ie_cur_time ie) = true ->
  exists t v',
    loop_body w l ie v = (t, Continue (Next v'))
    /\ last_update_check v' = ie_time_check ie
    /\ last_config_check v'
       = (if file_changed ie v then ie_time_reload ie else last_config_check v)
    /\ cfg v' = (if file_changed ie v then snd (ie_load_config ie) else cfg v).
Proof.
  unfold past_end_time, loop_body, auto_update, reload, show_stats.
  intros Hp Hd. rewrite Hp, Hd.
  destruct (file_changed ie v), (ie_load_config ie) as [r c], (r =? 0);
    unfold_m; cbn; split_ifs; eexists _, _; (split; [reflexivity | repeat split]).
Qed.

(** C5 (as stated, fails on the code).  The claim has the last-observed
    timestamp set to the file's modification time, 150 in the spec's example.
    Interval 30, last check at 0, last reload at 100; at 61 the file shows
    modification time 150: the pass reloads and the timestamp becomes 61, the
    time read at line 299, not 150. *)
Lemma C5_timestamp_is_not_the_mtime :
  let v := vars_at 0 100 in
  let ie := pass 61 150 (0, sample_cfg) in
  reloads sample_world sample_locals ie v = true
  /\ ie_stat ie = Some 150
  /\ exists t v',
       loop_body sample_world sample_locals ie v = (t, Continue (Next v'))
       /\ last_config_check v' = 61
       /\ last_config_check v' <> 150.
Proof.
  cbv zeta. split; [reflexivity|]. split; [reflexivity|].
  eexists _, _. split; [reflexivity|]. cbn. split; [reflexivity | discriminate].
Qed.

(** C5 (amended).  After every pass in which the update check is due, the
    last-check timestamp is the time read at line 309, whatever the outcome;
    the last-reload timestamp is the time read at line 299 if the pass
    reloaded (whether or not the reload succeeded) and is unchanged
    otherwise; and no later pass reloads until more than the interval has
    elapsed since that check. *)
Theorem C5_timestamps_after_due_check
  (w : world) (l : locals) (ie : iter_env) (v : loop_vars) :
  past_end_time l ie = false ->
  check_due v (ie_cur_time ie) = true ->
  exists t v',
    loop_body w l ie v = (t, Continue (Next v'))
    /\ last_update_check v' = ie_time_check ie
    /\ last_config_check v'
       = (if reloads w l ie v then ie_time_reload ie else last_config_check v)
    /\ forall ie2,
         ie_cur_time ie2 - last_update_check v' <= cfg_update_time (cfg v') ->
         reloads w l ie2 v' = false.
Proof.
  intros Hp Hd.
  destruct (loop_body_due w l ie v Hp Hd) as (t & v' & E & Hu & Hc & _).
  exists t, v'. repeat split; try assumption.
  - rewrite reloads_spec, Hp, Hd. exact Hc.
  - intros ie2 H. rewrite reloads_spec. unfold check_due.
    apply Z.ltb_ge in H. rewrite H, !andb_false_r. reflexivity.
Qed.

Lemma C5_timestamps_after_due_check_witness :
  exists t v',
    loop_body sample_world sample_locals (pass 61 150 (7, sample_cfg)) (vars_at 0 100)
    = (t, Continue (Next v'))
    /\ last_update_check v' = 61
    /\ last_config_check v' = 61
    /\ forall ie2,
         ie_cur_time ie2 - last_update_check v' <= cfg_update_time (cfg v') ->
         reloads sample_world sample_locals ie2 v' = false.
Proof.
  apply (C5_timestamps_after_due_check sample_world sample_locals
           (pass 61 150 (7, sample_cfg)) (vars_at 0 100)); reflexivity.
Defined.

(** C10.  In a pass in which the update check is due and the file has
    changed, a [load_config] that fails is followed by the warning of line
    292 with the error code, then by [update_fwd_rules] on the configuration
    as [load_config] left it in memory, and both timestamps are set to the
    times read at lines 299 and 309. *)
Theorem C10_failed_reload
  (w : world) (l : locals) (ie : iter_env) (v : loop_vars) :
  past_end_time l ie = false ->
  check_due v (ie_cur_time ie) = true ->
  file_changed ie v = true ->
  fst (ie_load_config ie) <> 0 ->
  exists t v',
    loop_body w l ie v
    = (time_NULL
       :: stat (cli_cfg_file (w_cli w))
       :: load_config (cli_cfg_file (w_cli w)) (overrides_of_cli (w_cli w))
       :: log_msg 1 false
            "[WARNING] Failed to load config after update check (%d)...\n"
            [AInt (fst (ie_load_config ie))]
       :: update_fwd_rules (map_fwd_rules l) (snd (ie_load_config ie))
       :: time_NULL
       :: time_NULL
       :: t,
       Continue (Next v'))
    /\ is_warning
         (log_msg 1 false
            "[WARNING] Failed to load config after update check (%d)...\n"
            [AInt (fst (ie_load_config ie))]) = true
    /\ cfg v' = snd (ie_load_config ie)
    /\ last_config_check v' = ie_time_reload ie
    /\ last_update_check v' = ie_time_check ie.
Proof.
  unfold past_end_time, loop_body, auto_update, reload, show_stats.
  intros Hp Hd Hf Hr. rewrite Hp, Hd, Hf.
  destruct (ie_load_config ie) as [r c]. cbn [fst snd] in *.
  apply Z.eqb_neq in Hr. rewrite Hr.
  unfold_m; cbn; split_ifs; eexists _, _; (split; [reflexivity | repeat split]).
Qed.

Lemma C10_failed_reload_witness :
  exists t v',
    loop_body sample_world sample_locals (pass 61 150 (7, sample_cfg)) (vars_at 0 100)
    = (time_NULL
       :: stat "/etc/xdpfwd/xdpfwd.conf"
       :: load_config "/etc/xdpfwd/xdpfwd.conf" (overrides_of_cli sample_cli)
       :: log_msg 1 false
            "[WARNING] Failed to load config after update check (%d)...\n"
            [AInt 7]
       :: update_fwd_rules 6 sample_cfg
       :: time_NULL
       :: time_NULL
       :: t,
       Continue (Next v'))
    /\ is_warning
         (log_msg 1 false
            "[WARNING] Failed to load config after update check (%d)...\n"
            [AInt 7]) = true
    /\ cfg v' = sample_cfg
    /\ last_config_check v' = 61
    /\ last_update_check v' = 61.
Proof.
  apply (C10_failed_reload sample_world sample_locals
           (pass 61 150 (7, sample_cfg)) (vars_at 0 100));
    try reflexivity.
  cbn. lia.
Defined.

(** ** C8 *)

Lemma pin_needed_maps_enabled (w : world) (c : config__t) :
  cfg_pin_maps c = true ->
  pin_needed_maps w c
  = ([log_msg 2 false "Pinning BPF maps..." [];
      get_bpf_obj;
      unpin_map (XDP_MAP_PIN_DIR w) "map_fwd_rules";
      pin_map (XDP_MAP_PIN_DIR w) "map_fwd_rules";
      pin_report (XDP_MAP_PIN_DIR w) (w_pin w)],
     Continue tt).
Proof.
  intros H. rewrite pin_needed_maps_trace, H. unfold pin_report.
  destruct (w_pin w =? 0); reflexivity.
Qed.

(** C8.  With pinning enabled, in a run that passes the startup guards (none
    of which looks at the pin path): whatever the [unpin_map] before pinning
    answers and whatever [pin_map] answers, startup goes on to the first rule
    load and into the loop.  The unpin of the same directory and name comes
    right before the pin and nothing is logged for it; the line after the pin
    is the warning with the error code exactly when the pin failed. *)
Theorem C8_stale_pin_does_not_block_startup (w : world) :
  startup_ok w = true ->
  cfg_pin_maps (snd (w_load_config w)) = true ->
  exists t0 rb0 t2,
    bring_up w = (t0, Continue rb0)
    /\ forall unpin_ret pin_ret,
         startup (with_pin_answers w unpin_ret pin_ret)
         = (t0
            ++ [log_msg 2 false "Pinning BPF maps..." [];
                get_bpf_obj;
                unpin_map (XDP_MAP_PIN_DIR w) "map_fwd_rules";
                pin_map (XDP_MAP_PIN_DIR w) "map_fwd_rules";
                pin_report (XDP_MAP_PIN_DIR w) pin_ret]
            ++ log_msg 2 false "Updating rules..." []
               :: update_fwd_rules (w_map_fwd_rules w) (snd (w_load_config w))
               :: t2,
            Continue (init_locals w rb0, init_vars w))
         /\ is_warning (pin_report (XDP_MAP_PIN_DIR w) pin_ret) = negb (pin_ret =? 0)
         /\ is_unpin_warning (pin_report (XDP_MAP_PIN_DIR w) pin_ret) = false.
Proof.
  intros Hok Hpin.
  destruct (bring_up_runs w Hok) as (t0 & rb0 & E0 & _).
  destruct (enter_loop_runs w rb0) as (t2 & E2 & _).
  exists t0, rb0, t2. split; [exact E0|]. intros u p. split; [|split].
  - unfold startup.
    change (bring_up (with_pin_answers w u p)) with (bring_up w).
    rewrite E0, bind_continue.
    rewrite (pin_needed_maps_enabled (with_pin_answers w u p)) by exact Hpin.
    rewrite bind_continue.
    change (enter_loop (with_pin_answers w u p) rb0) with (enter_loop w rb0).
    rewrite E2. reflexivity.
  - unfold pin_report. destruct (p =? 0); reflexivity.
  - unfold pin_report. destruct (p =? 0); reflexivity.
Qed.

Lemma C8_stale_pin_does_not_block_startup_witness :
  exists t0 rb0 t2,
    bring_up sample_world = (t0, Continue rb0)
    /\ forall unpin_ret pin_ret,
         startup (with_pin_answers sample_world unpin_ret pin_ret)
         = (t0
            ++ [log_msg 2 false "Pinning BPF maps..." [];
                get_bpf_obj;
                unpin_map "/sys/fs/bpf/xdpfwd" "map_fwd_rules";
                pin_map "/sys/fs/bpf/xdpfwd" "map_fwd_rules";
                pin_report "/sys/fs/bpf/xdpfwd" pin_ret]
            ++ log_msg 2 false "Updating rules..." []
               :: update_fwd_rules 6 sample_cfg
               :: t2,
            Continue (init_locals sample_world rb0, init_vars sample_world))
         /\ is_warning (pin_report "/sys/fs/bpf/xdpfwd" pin_ret) = negb (pin_ret =? 0)
         /\ is_unpin_warning (pin_report "/sys/fs/bpf/xdpfwd" pin_ret) = false.
Proof.
  apply (C8_stale_pin_does_not_block_startup sample_world); reflexivity.
Defined.

(** ** C9 *)

(** A reload that changes the display interval: the configuration in memory
    changes, the next sleep does not. *)
Example reload_changes_interval_not_sleep :
  exists t t' v1 v2,
    loop_body sample_world sample_locals (pass 1031 1010 (0, slow_cfg)) (vars_at 1000 1000)
    = (t, Continue (Next v1))
    /\ cfg_stdout_update_time (cfg v1) = 5000
    /\ loop_body sample_world sample_locals (idle_pass 1032) v1
       = (t', Continue (Next v2))
    /\ sleeps t = [1000000]
    /\ sleeps t' = [1000000].
Proof. eexists _, _, _, _. repeat split; reflexivity. Qed.

(** C9.  Every [usleep] of a run is called with the sleep time computed at
    line 263 from the configuration loaded at startup, whatever the
    configurations that later reloads put in its place. *)
Theorem C9_sleep_time_fixed_at_startup (w : world) :
  Forall (eq (sleep_time_of (snd (w_load_config w)))) (sleeps (trace (main w))).
Proof.
  destruct (startup_ok w) eqn:Hok.
  - destruct (startup_runs w Hok) as (t & rb0 & E & S & _).
    rewrite (main_after_startup _ _ _ _ E). cbn [trace fst].
    rewrite sleeps_app, S. cbn [app].
    destruct (control_loop_trace w (init_locals w rb0) (w_iters w) (init_vars w))
      as (F & _ & R).
    destruct (control_loop w (init_locals w rb0) (w_iters w) (init_vars w))
      as [tl [code| |v']] eqn:EL; cbn [trace result fst snd] in *.
    + exact F.
    + exact F.
    + rewrite bind_continue. cbn [trace fst]. rewrite sleeps_app.
      apply Forall_app. split; [exact F|].
      destruct (Z.eq_dec (w_detach w) 0) as [Hd|Hd].
      * destruct (cleanup_detach_ok w (init_locals w rb0) v' Hd) as (tc & Ec & Sc & _).
        rewrite Ec. cbn. rewrite Sc. constructor.
      * destruct (cleanup_detach_failed w (init_locals w rb0) v' Hd)
          as (tc & Ec & Sc & _).
        rewrite Ec. cbn. rewrite Sc. constructor.
  - destruct (startup_aborts w Hok) as (t & code & E & S & _).
    unfold main. rewrite E. cbn. rewrite S. constructor.
Qed.

(** ** C6 and C7: the loop against the clock *)

Lemma elapsed_us_repeat (us : Z) (n : nat) (t : list call) :
  sleeps t = repeat us n -> elapsed_us t = Z.of_nat n * us.
Proof.
  unfold elapsed_us. intros ->.
  induction n as [|n IH]; [reflexivity|].
  cbn [repeat fold_right]. rewrite IH. lia.
Qed.

Lemma elapsed_us_usleep (us : Z) : elapsed_us [usleep us] = us.
Proof. unfold elapsed_us. cbn. lia. Qed.










Lemma elapsed_with_signals_quiet (us : Z) (n : nat) (rest : list Z)
  (sigs : list (option Z)) :
  elapsed_with_signals_us (repeat us n ++ rest) (repeat None n ++ sigs)
  = Z.of_nat n * us + elapsed_with_signals_us rest sigs.
Proof.
  induction n as [|n IH]; [cbn; lia|].
  cbn [repeat app elapsed_with_signals_us]. rewrite IH. lia.
Qed.

Lemma signal_offsets_quiet (at_us : Z) (pre rest : list iter_env) :
  forallb quiet pre = true ->
  signal_offsets at_us (pre ++ rest)
  = repeat None (List.length pre) ++ signal_offsets at_us rest.
Proof.
  unfold signal_offsets. induction pre as [|p pre IH]; intros H; [reflexivity|].
  cbn [forallb] in H. apply andb_true_iff in H as [Hp H].
  unfold quiet in Hp. apply andb_true_iff in Hp as [_ Hs]. apply negb_true_iff in Hs.
  cbn. rewrite Hs. f_equal. apply IH. assumption.
Qed.

(** C7 (as stated, fails on the code).  The claim has the loop leave only
    after the sleep in which the signal arrived has completed.  The handlers
    of lines 249-250 are installed with [signal], so the [usleep] of line 325
    returns as soon as the signal is handled.  Two quiet passes, then a
    signal a quarter of a second into the third sleep of one second: the loop
    has left 2.25 seconds after it started, three quarters of a second
    before that sleep would have completed. *)
Lemma C7_loop_leaves_before_the_sleep_is_over :
  let its := [idle_pass 1000; idle_pass 1001; with_signal_in_sleep (idle_pass 1002);
              idle_pass 1003] in
  exists t v',
    control_loop sample_world sample_locals its (vars_at 1000 1000) = (t, Continue v')
    /\ sleeps t = [1000000; 1000000; 1000000]
    /\ elapsed_with_signals_us (sleeps t) (signal_offsets 250000 its) = 2250000
    /\ elapsed_with_signals_us (sleeps t) (signal_offsets 250000 its)
       < elapsed_us t.
Proof. cbv zeta. eexists _, _. repeat split; reflexivity. Qed.

(** C7 (amended).  Let the loop run quietly through the passes [pre] and let
    a signal arrive [at_us] microseconds into the sleep of the next pass [ie]
    (none of these passes being past the end time).  The loop does not leave
    within a pass: it leaves at the test of [cont] that follows the return of
    that [usleep], so its trace ends with this [usleep], as many sleeps were
    called as passes begun and the passes of [post] are not started.  As the
    handled signal ends the sleep, the loop has then run for the [pre] whole
    sleeps and [at_us] more: it leaves at the instant of the signal, hence
    within one display interval of it and not later than that sleep would
    have completed. *)
Theorem C7_signal_in_sleep_ends_loop
  (w : world) (l : locals) (pre : list iter_env) (ie : iter_env)
  (post : list iter_env) (v : loop_vars) (at_us : Z) :
  cont v = true ->
  forallb quiet pre = true ->
  forallb (fun i => negb (past_end_time l i)) (pre ++ [ie]) = true ->
  ie_sig_sleep ie = true ->
  0 <= at_us <= sleep_time l ->
  exists t v',
    control_loop w l (pre ++ ie :: post) v
    = (t ++ [usleep (sleep_time l)], Continue v')
    /\ cont v' = false
    /\ sleeps t = repeat (sleep_time l) (List.length pre)
    /\ elapsed_with_signals_us (sleeps (t ++ [usleep (sleep_time l)]))
         (signal_offsets at_us (pre ++ ie :: post))
       = Z.of_nat (List.length pre) * sleep_time l + at_us
    /\ elapsed_with_signals_us (sleeps (t ++ [usleep (sleep_time l)]))
         (signal_offsets at_us (pre ++ ie :: post))
       <= elapsed_us (t ++ [usleep (sleep_time l)]).
Proof.
  intros Hc Hq Hp Hsig Hat.
  assert (Hshape : exists t v',
             control_loop w l (pre ++ ie :: post) v
             = (t ++ [usleep (sleep_time l)], Continue v')
             /\ cont v' = false
             /\ sleeps t = repeat (sleep_time l) (List.length pre)).
  { clear Hat. revert v Hc Hq Hp.
    induction pre as [|p pre IH]; intros v Hc Hq Hp.
    - cbn [app forallb] in *. apply andb_true_iff in Hp as [Hp _].
      apply negb_true_iff in Hp.
      destruct (loop_body_next w l ie v Hp) as (t & v1 & E & S & _ & C).
      rewrite Hsig in C.
      rewrite (control_loop_next _ _ _ _ _ _ _ Hc E), (control_loop_flag _ _ _ _ C).
      cbn [trace result fst snd]. rewrite app_nil_r.
      exists t, v1. split; [reflexivity|]. split; assumption.
    - cbn [app forallb] in *.
      apply andb_true_iff in Hq as [Hq1 Hq]. apply andb_true_iff in Hp as [Hp1 Hp].
      apply negb_true_iff in Hp1.
      unfold quiet in Hq1. apply andb_true_iff in Hq1 as [Hw Hs].
      apply negb_true_iff in Hw, Hs.
      destruct (loop_body_next w l p v Hp1) as (t & v1 & E & S & _ & C).
      rewrite Hw, Hs, Hc in C.
      destruct (IH v1 C Hq Hp) as (t' & v' & E' & C' & S').
      rewrite (control_loop_next _ _ _ _ _ _ _ Hc E), E'. cbn [trace result fst snd].
      exists ((t ++ [usleep (sleep_time l)]) ++ t'), v'.
      split; [rewrite <- !app_assoc; reflexivity|].
      split; [assumption|].
      rewrite !sleeps_app, S, S'. reflexivity. }
  destruct Hshape as (t & v' & E & C & S).
  exists t, v'. split; [exact E|]. split; [exact C|]. split; [exact S|].
  assert (Hel : elapsed_with_signals_us (sleeps (t ++ [usleep (sleep_time l)]))
                  (signal_offsets at_us (pre ++ ie :: post))
                = Z.of_nat (List.length pre) * sleep_time l + at_us).
  { rewrite sleeps_app, S, signal_offsets_quiet by assumption.
    rewrite elapsed_with_signals_quiet. cbn. rewrite Hsig. cbn. lia. }
  split; [exact Hel|].
  rewrite Hel, elapsed_us_app, elapsed_us_usleep, (elapsed_us_repeat _ _ _ S). lia.
Qed.

Lemma C7_signal_in_sleep_ends_loop_witness :
  exists t v',
    control_loop sample_world sample_locals
      ([idle_pass 1000; idle_pass 1001]
       ++ with_signal_in_sleep (idle_pass 1002) :: [idle_pass 1003; idle_pass 1004])
      (vars_at 1000 1000)
    = (t ++ [usleep (sleep_time sample_locals)], Continue v')
    /\ cont v' = false
    /\ sleeps t = repeat (sleep_time sample_locals) 2
    /\ elapsed_with_signals_us (sleeps (t ++ [usleep (sleep_time sample_locals)]))
         (signal_offsets 250000
            ([idle_pass 1000; idle_pass 1001]
             ++ with_signal_in_sleep (idle_pass 1002)
                :: [idle_pass 1003; idle_pass 1004]))
       = 2 * sleep_time sample_locals + 250000
    /\ elapsed_with_signals_us (sleeps (t ++ [usleep (sleep_time sample_locals)]))
         (signal_offsets 250000
            ([idle_pass 1000; idle_pass 1001]
             ++ with_signal_in_sleep (idle_pass 1002)
                :: [idle_pass 1003; idle_pass 1004]))
       <= elapsed_us (t ++ [usleep (sleep_time sample_locals)]).
Proof.
  apply (C7_signal_in_sleep_ends_loop sample_world sample_locals
           [idle_pass 1000; idle_pass 1001]
           (with_signal_in_sleep (idle_pass 1002))
           [idle_pass 1003; idle_pass 1004] (vars_at 1000 1000) 250000);
    try reflexivity.
  cbn. lia.
Defined.

(** * Further properties of the loader *)

(** ** The shape of a run *)

Lemma main_of_failed_startup (w : world) :
  startup_ok w = false ->
  exists code, main w = (trace (bring_up w), Return code).
Proof.
  intros H. destruct (bring_up_aborts w H) as (t & code & E & _).
  exists code. unfold main, startup. rewrite E. reflexivity.
Qed.

(** A run that passes the guards is the bring-up, the pinning step, the
    entry into the loop, the loop and, if the loop ends, the cleanup. *)
Lemma main_of_startup (w : world) :
  startup_ok w = true ->
  exists t0 rb0,
    bring_up w = (t0, Continue rb0)
    /\ main w
       = (t0
          ++ trace (pin_needed_maps w (snd (w_load_config w)))
          ++ trace (enter_loop w rb0)
          ++ trace (control_loop w (init_locals w rb0) (w_iters w) (init_vars w))
          ++ match result (control_loop w (init_locals w rb0) (w_iters w) (init_vars w)) with
             | Continue v' => trace (cleanup w (init_locals w rb0) v')
             | _ => []
             end,
          match result (control_loop w (init_locals w rb0) (w_iters w) (init_vars w)) with
          | Continue v' => result (cleanup w (init_locals w rb0) v')
          | Pending => Pending
          | Return code => Return code
          end).
Proof.
  intros H. destruct (bring_up_runs w H) as (t0 & rb0 & E0 & _).
  destruct (enter_loop_runs w rb0) as (t2 & E2 & _).
  exists t0, rb0. split; [exact E0|].
  assert (Es : startup w
               = (t0 ++ trace (pin_needed_maps w (snd (w_load_config w)))
                     ++ trace (enter_loop w rb0),
                  Continue (init_locals w rb0, init_vars w))).
  { unfold startup. rewrite E0, bind_continue, pin_needed_maps_trace.
    rewrite bind_continue, E2. reflexivity. }
  rewrite (main_after_startup _ _ _ _ Es).
  destruct (control_loop w (init_locals w rb0) (w_iters w) (init_vars w))
    as [tl [code| |v']]; cbn [trace result fst snd bind].
  - rewrite app_nil_r, <- !app_assoc. reflexivity.
  - rewrite app_nil_r, <- !app_assoc. reflexivity.
  - destruct (cleanup w (init_locals w rb0) v') as [tc rc]. cbn [fst snd].
    rewrite <- !app_assoc. reflexivity.
Qed.

(** What holds of every call of the pieces holds of every call of the run. *)
Lemma main_forall (w : world) (P : call -> Prop) :
  Forall P (trace (bring_up w)) ->
  (startup_ok w = true ->
   Forall P (trace (pin_needed_maps w (snd (w_load_config w))))
   /\ (forall rb0, Forall P (trace (enter_loop w rb0)))
   /\ (forall rb0 ie v, Forall P (trace (loop_body w (init_locals w rb0) ie v)))
   /\ (forall rb0 v, Forall P (trace (cleanup w (init_locals w rb0) v)))) ->
  Forall P (trace (main w)).
Proof.
  intros Hb Hrest. destruct (startup_ok w) eqn:Hok.
  - destruct (Hrest eq_refl) as (Hp & He & Hl & Hc).
    destruct (main_of_startup w Hok) as (t0 & rb0 & E0 & ->).
    rewrite E0 in Hb. cbn [trace fst] in *.
    assert (Hloop : forall its v,
               Forall P (fst (control_loop w (init_locals w rb0) its v))).
    { induction its as [|ie its IH]; intros v.
      - cbn. destruct (cont v); constructor.
      - cbn [control_loop]. destruct (cont v); [|constructor].
        specialize (Hl rb0 ie v). unfold trace in Hl.
        destruct (loop_body w (init_locals w rb0) ie v) as [tb [code| |[|v1]]];
          unfold ret; cbn [bind fst] in *; try assumption.
        + rewrite app_nil_r. assumption.
        + specialize (IH v1).
          destruct (control_loop w (init_locals w rb0) its v1) as [tl r].
          cbn [fst] in *. apply Forall_app. split; assumption. }
    repeat (apply Forall_app; split); try assumption.
    + apply He.
    + apply Hloop.
    + destruct (result (control_loop w (init_locals w rb0) (w_iters w) (init_vars w)));
        try constructor. apply Hc.
  - destruct (main_of_failed_startup w Hok) as (code & ->). exact Hb.
Qed.

Lemma startup_ok_handles (w : world) :
  startup_ok w = true -> 0 <= w_map_stats w /\ 0 <= w_map_fwd_rules w.
Proof.
  unfold startup_ok. rewrite !andb_true_iff, !negb_true_iff, !Z.ltb_ge.
  intros [[_ H1] H2]. split; assumption.
Qed.

(** ** Handles and configuration source *)

(** X7.  Every rule push and every stats read of a run, at startup or in any later
    pass, goes to the map handle resolved at startup, which is a valid
    descriptor (not negative); the stats read always uses the CPU count
    taken at startup. *)
Theorem handles_in_use_are_those_of_startup (w : world) :
  Forall (uses_startup_handles w) (trace (main w)).
Proof.
  apply main_forall.
  - unfold trace. bring_up_cases w ltac:(crunch_trace; forall_calls).
  - intros Hok. destruct (startup_ok_handles w Hok) as [Hs Hf].
    split; [|split; [|split]].
    + rewrite pin_needed_maps_trace. crunch_trace; forall_calls.
    + intros rb0. unfold enter_loop. crunch_trace; forall_calls.
    + intros rb0 ie v.
      unfold loop_body, auto_update, reload, show_stats, init_locals.
      destruct (ie_load_config ie) as [r c].
      crunch_trace; forall_calls.
    + intros rb0 v. unfold cleanup, unpin_needed_maps.
      crunch_trace; forall_calls.
Qed.

(** X8.  Every [load_config] of a run, the first and each reload, reads the file
    named on the command line with the overrides of the command line, and
    every [stat] is on that same file. *)
Theorem config_always_from_command_line (w : world) :
  Forall (uses_cli_config w) (trace (main w)).
Proof.
  apply main_forall.
  - unfold trace. bring_up_cases w ltac:(crunch_trace; forall_calls).
  - intros _. split; [|split; [|split]].
    + rewrite pin_needed_maps_trace. crunch_trace; forall_calls.
    + intros rb0. unfold enter_loop. crunch_trace; forall_calls.
    + intros rb0 ie v.
      unfold loop_body, auto_update, reload, show_stats, init_locals.
      destruct (ie_load_config ie) as [r c].
      crunch_trace; forall_calls.
    + intros rb0 v. unfold cleanup, unpin_needed_maps.
      crunch_trace; forall_calls.
Qed.

(** X6.  Both [attach_xdp] calls of a run, the attach and the detach, name the
    same interface index and the same mode flags. *)
Theorem detach_targets_what_was_attached (w : world) :
  Forall (same_attach_target w) (trace (main w)).
Proof.
  apply main_forall.
  - unfold trace. bring_up_cases w ltac:(crunch_trace; forall_calls).
  - intros _. split; [|split; [|split]].
    + rewrite pin_needed_maps_trace. crunch_trace; forall_calls.
    + intros rb0. unfold enter_loop. crunch_trace; forall_calls.
    + intros rb0 ie v.
      unfold loop_body, auto_update, reload, show_stats, init_locals.
      destruct (ie_load_config ie) as [r c].
      crunch_trace; forall_calls.
    + intros rb0 v. unfold cleanup, unpin_needed_maps.
      crunch_trace; forall_calls.
Qed.

(** ** What happens before the attach and after the detach *)

Lemma after_detach_app_miss (t1 t2 : list call) :
  count is_detach t1 = 0%nat -> after_detach (t1 ++ t2) = after_detach t2.
Proof.
  unfold count. induction t1 as [|c t1 IH]; [reflexivity|].
  cbn. destruct (is_detach c); cbn; [discriminate | exact IH].
Qed.

Lemma after_detach_none (t : list call) :
  count is_detach t = 0%nat -> after_detach t = [].
Proof.
  intros H. rewrite <- (app_nil_r t). rewrite after_detach_app_miss by assumption.
  reflexivity.
Qed.

Lemma before_attach_app_hit (t1 t2 : list call) :
  count is_attach t1 <> 0%nat -> before_attach (t1 ++ t2) = before_attach t1.
Proof.
  unfold count. induction t1 as [|c t1 IH]; [intros H; contradiction|].
  cbn. destruct (is_attach c); cbn; [reflexivity|].
  intros H. rewrite IH by assumption. reflexivity.
Qed.

(** A run that passes the guards: startup, loop and, if the loop ends,
    cleanup, with what is known of the startup part. *)
Lemma run_shape (w : world) :
  startup_ok w = true ->
  exists ts rb0,
    startup w = (ts, Continue (init_locals w rb0, init_vars w))
    /\ sleeps ts = []
    /\ count is_detach ts = 0%nat
    /\ count is_attach ts = 1%nat
    /\ ((exists tl,
           control_loop w (init_locals w rb0) (w_iters w) (init_vars w) = (tl, Pending)
           /\ main w = (ts ++ tl, Pending))
        \/ (exists tl v',
              control_loop w (init_locals w rb0) (w_iters w) (init_vars w)
              = (tl, Continue v')
              /\ main w
                 = (ts ++ tl ++ trace (cleanup w (init_locals w rb0) v'),
                    result (cleanup w (init_locals w rb0) v')))).
Proof.
  intros Hok. destruct (startup_runs w Hok) as (ts & rb0 & E & S & D & A).
  exists ts, rb0. repeat (split; [assumption|]).
  rewrite (main_after_startup _ _ _ _ E).
  destruct (control_loop_trace w (init_locals w rb0) (w_iters w) (init_vars w))
    as (_ & _ & R).
  destruct (control_loop w (init_locals w rb0) (w_iters w) (init_vars w))
    as [tl [code| |v']]; cbn [trace result fst snd] in *.
  - exfalso. exact (R code eq_refl).
  - left. exists tl. split; reflexivity.
  - right. exists tl, v'. split; [reflexivity|].
    rewrite bind_continue. cbn [fst snd]. reflexivity.
Qed.

(** X5.  After the detach a run only logs, unpins and closes the program: no rule
    push, no stats read, no poll, no sleep, no reload and no second detach
    follows it. *)
Theorem nothing_but_shutdown_after_detach (w : world) :
  forallb shutdown_call (after_detach (trace (main w))) = true.
Proof.
  destruct (startup_ok w) eqn:Hok.
  - destruct (run_shape w Hok) as (ts & rb0 & _ & _ & D & _ & [(tl & El & ->) | (tl & v' & El & ->)]);
      pose proof (control_loop_trace w (init_locals w rb0) (w_iters w) (init_vars w))
        as (_ & Dl & _);
      rewrite El in Dl; cbn [trace fst] in *.
    + rewrite after_detach_none; [reflexivity|]. rewrite count_app, D, Dl. reflexivity.
    + rewrite app_assoc, after_detach_app_miss
        by (rewrite count_app, D, Dl; reflexivity).
      unfold cleanup, unpin_needed_maps. crunch_trace; reflexivity.
  - destruct (startup_aborts w Hok) as (t & code & E & _ & D).
    unfold main. rewrite E. cbn. rewrite after_detach_none by assumption. reflexivity.
Qed.

Lemma bring_up_before_attach (w : world) :
  count acts_on_program (before_attach (trace (bring_up w))) = 0%nat.
Proof. unfold trace. bring_up_cases w ltac:(crunch_trace; reflexivity). Qed.

(** X4.  Before the attach a run never touches the program or its maps: no map
    handle is resolved, nothing is pinned or unpinned, no rule is pushed, no
    stats are read and nothing is detached or closed. *)
Theorem program_untouched_before_attach (w : world) :
  count acts_on_program (before_attach (trace (main w))) = 0%nat.
Proof.
  destruct (startup_ok w) eqn:Hok.
  - destruct (main_of_startup w Hok) as (t0 & rb0 & E0 & ->).
    destruct (bring_up_runs w Hok) as (t0' & rb0' & E0' & _ & _ & A).
    rewrite E0 in E0'. injection E0' as <- <-.
    cbn [trace fst]. rewrite before_attach_app_hit by (rewrite A; discriminate).
    pose proof (bring_up_before_attach w) as H. rewrite E0 in H. exact H.
  - destruct (main_of_failed_startup w Hok) as (code & ->).
    apply bring_up_before_attach.
Qed.

Lemma bring_up_without_attach (w : world) :
  attach_ok w = false ->
  count acts_on_program (trace (bring_up w)) = 0%nat
  /\ sleeps (trace (bring_up w)) = [].
Proof.
  unfold attach_ok, lookup_reached, trace.
  bring_up_cases w ltac:(cbn; intros H; try discriminate H;
                          crunch_trace; split; reflexivity).
Qed.

(** X3.  A run that does not get to a successful attach (a guard of lines 62-171
    fails, or the attach itself is refused) returns, and has neither touched
    the program or its maps nor slept. *)
Theorem failed_attach_touches_nothing (w : world) :
  attach_ok w = false ->
  (exists code, exit_status (main w) = Some code)
  /\ count acts_on_program (trace (main w)) = 0%nat
  /\ sleeps (trace (main w)) = [].
Proof.
  intros H.
  assert (Hok : startup_ok w = false) by (unfold startup_ok; rewrite H; reflexivity).
  destruct (main_of_failed_startup w Hok) as (code & E).
  destruct (bring_up_without_attach w H) as [Ha Hs].
  rewrite E. unfold exit_status. cbn [trace result fst snd].
  split; [exists code; reflexivity|]. split; assumption.
Qed.

Lemma failed_attach_touches_nothing_witness :
  (exists code, exit_status (main unknown_interface_world) = Some code)
  /\ count acts_on_program (trace (main unknown_interface_world)) = 0%nat
  /\ sleeps (trace (main unknown_interface_world)) = [].
Proof.
  apply (failed_attach_touches_nothing unknown_interface_world). reflexivity.
Defined.

(** ** Exit status *)

Lemma startup_ok_flags (w : world) :
  startup_ok w = true ->
  cli_help (w_cli w) = false /\ cli_list (w_cli w) = false.
Proof.
  unfold startup_ok, attach_ok, lookup_reached.
  rewrite !andb_true_iff, !negb_true_iff. tauto.
Qed.

Lemma bring_up_exit_code (w : world) :
  forall code,
    result (bring_up w) = Return code ->
    code = if cli_help (w_cli w)
                || ((fst (w_load_config w) =? 0) && cli_list (w_cli w))
           then EXIT_SUCCESS else EXIT_FAILURE.
Proof.
  unfold result.
  bring_up_cases w ltac:(crunch_trace; intros code H;
                          first [discriminate H | injection H as <-; reflexivity]).
Qed.

(** X2.  The exit status of a run that returns is [EXIT_SUCCESS] exactly for a
    help run, a list run whose configuration loaded, and a run that entered
    the loop and whose detach succeeded.  Failures of pinning, unpinning,
    stats reads and reloads never change it. *)
Theorem exit_status_of_a_run (w : world) (code : Z) :
  exit_status (main w) = Some code ->
  code = if exits_cleanly w then EXIT_SUCCESS else EXIT_FAILURE.
Proof.
  unfold exits_cleanly. destruct (startup_ok w) eqn:Hok.
  - destruct (startup_ok_flags w Hok) as [Hh Hl]. rewrite Hh, Hl, andb_false_r.
    cbn [orb andb].
    destruct (run_shape w Hok)
      as (ts & rb0 & _ & _ & _ & _ & [(tl & _ & ->) | (tl & v' & _ & ->)]);
      unfold exit_status; cbn [result snd]; [discriminate|].
    destruct (Z.eq_dec (w_detach w) 0) as [Hd|Hd].
    + destruct (cleanup_detach_ok w (init_locals w rb0) v' Hd) as (tc & -> & _).
      rewrite Hd. cbn. intros H. injection H as <-. reflexivity.
    + destruct (cleanup_detach_failed w (init_locals w rb0) v' Hd) as (tc & -> & _).
      apply Z.eqb_neq in Hd. rewrite Hd. cbn. intros H. injection H as <-. reflexivity.
  - destruct (bring_up_aborts w Hok) as (t & c & Eb & _).
    unfold main, startup, exit_status. rewrite Eb. cbn [bind result snd andb].
    rewrite orb_false_r. intros H. injection H as <-.
    apply bring_up_exit_code. rewrite Eb. reflexivity.
Qed.

Lemma exit_status_of_a_run_witness :
  0 = (if exits_cleanly sample_world then EXIT_SUCCESS else EXIT_FAILURE).
Proof.
  apply (exit_status_of_a_run sample_world 0). reflexivity.
Defined.

(** ** Runs that only inform *)

(** X1.  Help wins over everything else: the run prints the help menu and returns
    success without reading the configuration.  A list run prints the
    configuration as [load_config] left it and returns success without
    asking for an interface, raising a limit or loading anything. *)
Theorem help_and_list_only_print (w : world) :
  (cli_help (w_cli w) = true ->
   main w = ([parse_cli; print_help_menu], Return EXIT_SUCCESS))
  /\ (cli_help (w_cli w) = false ->
      fst (w_load_config w) = 0 ->
      cli_list (w_cli w) = true ->
      main w
      = ([parse_cli;
          set_cfg_defaults;
          load_config (cli_cfg_file (w_cli w)) (overrides_of_cli (w_cli w));
          print_config (snd (w_load_config w))],
         Return EXIT_SUCCESS)).
Proof.
  split.
  - intros Hh. unfold main, startup, bring_up. rewrite Hh. reflexivity.
  - intros Hh Hr Hl. unfold main, startup, bring_up.
    destruct (w_load_config w) as [r0 c0]. cbn [fst snd] in *.
    rewrite Hh, Hl, Hr. reflexivity.
Qed.

Lemma help_and_list_only_print_witness :
  main (with_startup sample_world true true (7, quiet_cfg) false)
  = ([parse_cli; print_help_menu], Return EXIT_SUCCESS)
  /\ main (with_startup sample_world false true (0, quiet_cfg) false)
     = ([parse_cli;
         set_cfg_defaults;
         load_config "/etc/xdpfwd/xdpfwd.conf" (overrides_of_cli sample_cli);
         print_config quiet_cfg],
        Return EXIT_SUCCESS).
Proof.
  split.
  - apply (proj1 (help_and_list_only_print
                    (with_startup sample_world true true (7, quiet_cfg) false))).
    reflexivity.
  - apply (proj2 (help_and_list_only_print
                    (with_startup sample_world false true (0, quiet_cfg) false)));
      reflexivity.
Defined.

(** ** Passes of the loop *)

(** What holds of the empty trace, of the trace of every pass, and of
    concatenations, holds of the trace of the loop. *)
Lemma control_loop_additive (w : world) (l : locals) (Q : list call -> Prop) :
  Q [] ->
  (forall a b, Q a -> Q b -> Q (a ++ b)) ->
  (forall ie v, Q (trace (loop_body w l ie v))) ->
  forall its v, Q (trace (control_loop w l its v)).
Proof.
  intros Hnil Happ Hbody. induction its as [|ie its IH]; intros v.
  - cbn. destruct (cont v); exact Hnil.
  - cbn [control_loop]. destruct (cont v); [|exact Hnil].
    specialize (Hbody ie v). unfold trace in *.
    destruct (loop_body w l ie v) as [tb [code| |[|v1]]];
      unfold ret; cbn [bind fst] in *; try assumption.
    + rewrite app_nil_r. assumption.
    + specialize (IH v1). destruct (control_loop w l its v1) as [tl r].
      cbn [fst] in *. apply Happ; assumption.
Qed.

(** A pass in which the update check is not due. *)
Lemma loop_body_not_due (w : world) (l : locals) (ie : iter_env) (v : loop_vars) :
  past_end_time l ie = false ->
  check_due v (ie_cur_time ie) = false ->
  exists t v',
    loop_body w l ie v = (t, Continue (Next v'))
    /\ cfg v' = cfg v
    /\ doing_stats v' = doing_stats v
    /\ last_update_check v' = last_update_check v
    /\ last_config_check v' = last_config_check v
    /\ count is_stat t = 0%nat
    /\ count is_load_config t = 0%nat
    /\ count is_update_rules t = 0%nat.
Proof.
  unfold past_end_time, loop_body, auto_update, show_stats.
  intros Hp Hd. rewrite Hp, Hd.
  crunch_trace; eexists _, _; (split; [reflexivity | repeat split]).
Qed.

(** X9.  A pass that does not reload, because the check is not due, the [stat]
    fails or the file is not newer, leaves the configuration, [doing_stats]
    and the time of the last reload as they were and pushes no rules; the
    check time moves exactly when the check was due; and nothing is logged
    for a failed [stat]: the only possible log line is the stats warning. *)
Theorem pass_without_reload_changes_nothing
  (w : world) (l : locals) (ie : iter_env) (v : loop_vars) :
  past_end_time l ie = false ->
  reloads w l ie v = false ->
  exists t v',
    loop_body w l ie v = (t, Continue (Next v'))
    /\ cfg v' = cfg v
    /\ doing_stats v' = doing_stats v
    /\ last_config_check v' = last_config_check v
    /\ last_update_check v'
       = (if check_due v (ie_cur_time ie) then ie_time_check ie
          else last_update_check v)
    /\ count is_update_rules t = 0%nat
    /\ count is_stat t = (if check_due v (ie_cur_time ie) then 1%nat else 0%nat)
    /\ count is_log t
       = (if cfg_no_stats (cfg v) then 0%nat
          else if ie_calc_stats ie =? 0 then 0%nat else 1%nat).
Proof.
  intros Hp Hr. rewrite reloads_spec, Hp in Hr. cbn [negb andb] in Hr.
  unfold past_end_time in Hp. unfold loop_body, auto_update, show_stats.
  rewrite Hp.
  destruct (check_due v (ie_cur_time ie)); cbn [andb] in Hr; [rewrite Hr|];
    crunch_trace; eexists _, _; (split; [reflexivity | repeat split]).
Qed.

Lemma pass_without_reload_changes_nothing_witness :
  exists t v',
    loop_body sample_world sample_locals
      {| ie_cur_time := 1040; ie_stat := None; ie_load_config := (0, slow_cfg);
         ie_time_reload := 1040; ie_time_check := 1041; ie_calc_stats := 0;
         ie_sig_work := false; ie_sig_sleep := false |}
      (vars_at 1000 1000)
    = (t, Continue (Next v'))
    /\ cfg v' = sample_cfg
    /\ doing_stats v' = true
    /\ last_config_check v' = 1000
    /\ last_update_check v' = 1041
    /\ count is_update_rules t = 0%nat
    /\ count is_stat t = 1%nat
    /\ count is_log t = 0%nat.
Proof.
  apply (pass_without_reload_changes_nothing sample_world sample_locals
           {| ie_cur_time := 1040; ie_stat := None; ie_load_config := (0, slow_cfg);
              ie_time_reload := 1040; ie_time_check := 1041; ie_calc_stats := 0;
              ie_sig_work := false; ie_sig_sleep := false |}
           (vars_at 1000 1000)); reflexivity.
Defined.

(** X10.  With a reload interval that is zero or negative the automatic update is
    off for the whole run of the loop: no pass stats the file, reloads or
    pushes rules, and the loop ends with the configuration it started with. *)
Theorem no_auto_update_without_interval (w : world) (l : locals) :
  forall (its : list iter_env) (v : loop_vars),
    cfg_update_time (cfg v) <= 0 ->
    count is_stat (trace (control_loop w l its v)) = 0%nat
    /\ count is_load_config (trace (control_loop w l its v)) = 0%nat
    /\ count is_update_rules (trace (control_loop w l its v)) = 0%nat
    /\ forall t v', control_loop w l its v = (t, Continue v') -> cfg v' = cfg v.
Proof.
  induction its as [|ie its IH]; intros v Hu.
  - cbn. destruct (cont v); cbn; repeat split; try reflexivity.
    + intros t v' H. discriminate H.
    + intros t v' H. injection H as _ <-. reflexivity.
  - destruct (cont v) eqn:Hc.
    2:{ rewrite control_loop_flag by assumption. cbn. repeat split.
        intros t v' H. injection H as _ <-. reflexivity. }
    destruct (past_end_time l ie) eqn:Hp.
    + rewrite control_loop_break by assumption. cbn. repeat split.
      intros t v' H. injection H as _ <-. reflexivity.
    + assert (Hd : check_due v (ie_cur_time ie) = false).
      { unfold check_due. apply Z.ltb_ge in Hu. rewrite Hu. reflexivity. }
      destruct (loop_body_not_due w l ie v Hp Hd)
        as (tb & v1 & E & Hcfg & _ & _ & _ & Hs & Hl & Hr).
      rewrite (control_loop_next _ _ _ _ _ _ _ Hc E). cbn [trace result fst snd].
      rewrite <- Hcfg in Hu. destruct (IH v1 Hu) as (Is & Il & Ir & Icfg).
      rewrite !count_app, Hs, Hl, Hr, Is, Il, Ir. repeat split.
      intros t v' H. rewrite <- Hcfg.
      destruct (control_loop w l its v1) as [tl r] eqn:El. cbn [trace result fst snd] in H.
      injection H as _ Hres. subst r. exact (Icfg tl v' eq_refl).
Qed.

Lemma no_auto_update_without_interval_witness :
  count is_stat (trace (control_loop sample_world sample_locals
                          [idle_pass 1000; idle_pass 5000]
                          (init_vars (with_startup sample_world false false
                                        (0, static_cfg) false)))) = 0%nat
  /\ count is_load_config (trace (control_loop sample_world sample_locals
                                    [idle_pass 1000; idle_pass 5000]
                                    (init_vars (with_startup sample_world false false
                                                  (0, static_cfg) false)))) = 0%nat
  /\ count is_update_rules (trace (control_loop sample_world sample_locals
                                     [idle_pass 1000; idle_pass 5000]
                                     (init_vars (with_startup sample_world false false
                                                   (0, static_cfg) false)))) = 0%nat
  /\ forall t v',
       control_loop sample_world sample_locals [idle_pass 1000; idle_pass 5000]
         (init_vars (with_startup sample_world false false (0, static_cfg) false))
       = (t, Continue v') ->
       cfg v' = cfg (init_vars (with_startup sample_world false false
                                  (0, static_cfg) false)).
Proof.
  apply (no_auto_update_without_interval sample_world sample_locals
           [idle_pass 1000; idle_pass 5000]
           (init_vars (with_startup sample_world false false (0, static_cfg) false))).
  cbn. lia.
Defined.

(** X11.  A reload takes effect within its own pass: the rules are pushed from the
    configuration [load_config] left in memory (even when it failed), no
    stats are read before that push, and after it stats are read exactly if
    that configuration has them enabled, with its per-second flag;
    [doing_stats] is set if that configuration enables stats and is never
    cleared. *)
Theorem reload_takes_effect_in_its_pass
  (w : world) (l : locals) (ie : iter_env) (v : loop_vars) :
  past_end_time l ie = false ->
  check_due v (ie_cur_time ie) = true ->
  file_changed ie v = true ->
  exists t1 t2 v',
    loop_body w l ie v
    = (t1 ++ update_fwd_rules (map_fwd_rules l) (snd (ie_load_config ie)) :: t2,
       Continue (Next v'))
    /\ cfg v' = snd (ie_load_config ie)
    /\ count is_calc_stats t1 = 0%nat
    /\ count is_update_rules t1 = 0%nat
    /\ count is_update_rules t2 = 0%nat
    /\ existsb is_calc_stats t2 = negb (cfg_no_stats (snd (ie_load_config ie)))
    /\ Forall (fun c => match c with
                        | calc_stats _ _ per_second =>
                          per_second = cfg_stats_per_second (snd (ie_load_config ie))
                        | _ => True
                        end) t2
    /\ doing_stats v' = doing_stats v || negb (cfg_no_stats (snd (ie_load_config ie))).
Proof.
  unfold past_end_time, loop_body, auto_update, reload, show_stats.
  intros Hp Hd Hf. rewrite Hp, Hd, Hf.
  destruct (ie_load_config ie) as [r c]. cbn [fst snd].
  exists (time_NULL
          :: stat (cli_cfg_file (w_cli w))
          :: load_config (cli_cfg_file (w_cli w)) (overrides_of_cli (w_cli w))
          :: (if r =? 0 then []
              else [log_msg 1 false
                      "[WARNING] Failed to load config after update check (%d)...\n"
                      [AInt r]])).
  unfold_m. destruct (r =? 0); cbn;
    destruct (cfg_no_stats c), (doing_stats v);
    crunch_trace; eexists _, _; (split; [reflexivity | repeat split]);
    forall_calls.
Qed.

Lemma reload_takes_effect_in_its_pass_witness :
  exists t1 t2 v',
    loop_body sample_world sample_locals (pass 1031 1010 (0, quiet_cfg)) (vars_at 1000 1000)
    = (t1 ++ update_fwd_rules 6 quiet_cfg :: t2, Continue (Next v'))
    /\ cfg v' = quiet_cfg
    /\ count is_calc_stats t1 = 0%nat
    /\ count is_update_rules t1 = 0%nat
    /\ count is_update_rules t2 = 0%nat
    /\ existsb is_calc_stats t2 = false
    /\ Forall (fun c => match c with
                        | calc_stats _ _ per_second => per_second = false
                        | _ => True
                        end) t2
    /\ doing_stats v' = true.
Proof.
  apply (reload_takes_effect_in_its_pass sample_world sample_locals
           (pass 1031 1010 (0, quiet_cfg)) (vars_at 1000 1000)); reflexivity.
Defined.

(** ** Invariants of the loop *)

Lemma loop_body_keeps_stats_flag
  (w : world) (l : locals) (ie : iter_env) (v v' : loop_vars) (t : list call) :
  loop_body w l ie v = (t, Continue (Next v')) ->
  (stats_flag_set v -> stats_flag_set v')
  /\ (doing_stats v = true -> doing_stats v' = true).
Proof.
  unfold loop_body, auto_update, reload, show_stats, stats_flag_set.
  destruct ((0 <? end_time l) && (end_time l <=? ie_cur_time ie));
    [unfold_m; cbn; discriminate|].
  destruct (check_due v (ie_cur_time ie)), (file_changed ie v),
    (ie_load_config ie) as [r c];
    unfold_m; try destruct (r =? 0); cbn;
    try destruct (cfg_no_stats c) eqn:Hn; destruct (doing_stats v) eqn:Hds;
    crunch_trace; intros H; injection H as _ <-; cbn; intuition congruence.
Qed.

(** X12.  [doing_stats] is never cleared by the loop, and whenever the loop ends
    with stats enabled in the configuration, [doing_stats] is set. *)
Theorem stats_flag_is_kept (w : world) (l : locals) :
  forall (its : list iter_env) (v : loop_vars) (t : list call) (v' : loop_vars),
    stats_flag_set v ->
    control_loop w l its v = (t, Continue v') ->
    stats_flag_set v' /\ (doing_stats v = true -> doing_stats v' = true).
Proof.
  induction its as [|ie its IH]; intros v t v' Hinv H.
  - cbn in H. destruct (cont v); [discriminate|].
    injection H as _ <-. split; [assumption | auto].
  - destruct (cont v) eqn:Hc.
    2:{ rewrite control_loop_flag in H by assumption.
        injection H as _ <-. split; [assumption | auto]. }
    destruct (past_end_time l ie) eqn:Hp.
    + rewrite control_loop_break in H by assumption.
      injection H as _ <-. split; [assumption | auto].
    + destruct (loop_body_next w l ie v Hp) as (tb & v1 & E & _).
      rewrite (control_loop_next _ _ _ _ _ _ _ Hc E) in H.
      destruct (loop_body_keeps_stats_flag _ _ _ _ _ _ E) as [K1 K2].
      destruct (control_loop w l its v1) as [tl r] eqn:El. cbn [trace result fst snd] in H.
      injection H as _ Hres. subst r.
      destruct (IH v1 tl v' (K1 Hinv) El) as [I1 I2].
      split; [assumption | auto].
Qed.

Lemma stats_flag_is_kept_witness :
  exists tl v',
    control_loop sample_world sample_locals
      [pass 1031 1010 (0, quiet_cfg); with_signal_in_sleep (idle_pass 1032)]
      (init_vars sample_world)
    = (tl, Continue v')
    /\ stats_flag_set v'
    /\ (doing_stats (init_vars sample_world) = true -> doing_stats v' = true).
Proof.
  eexists _, _. split; [reflexivity|].
  eapply (stats_flag_is_kept sample_world sample_locals
           [pass 1031 1010 (0, quiet_cfg); with_signal_in_sleep (idle_pass 1032)]
           (init_vars sample_world)).
  - intros _. reflexivity.
  - reflexivity.
Defined.

Lemma loop_body_timestamps
  (w : world) (l : locals) (ie : iter_env) (v v' : loop_vars) (t : list call) :
  loop_body w l ie v = (t, Continue (Next v')) ->
  (last_update_check v' = last_update_check v
   \/ last_update_check v' = ie_time_check ie)
  /\ (last_config_check v' = last_config_check v
      \/ last_config_check v' = ie_time_reload ie).
Proof.
  unfold loop_body, auto_update, reload, show_stats.
  destruct ((0 <? end_time l) && (end_time l <=? ie_cur_time ie));
    [unfold_m; cbn; discriminate|].
  destruct (check_due v (ie_cur_time ie)), (file_changed ie v),
    (ie_load_config ie) as [r c];
    crunch_trace; intros H; injection H as _ <-; cbn; auto.
Qed.

(** X13.  On a clock that does not run backwards, and with both timestamps not
    ahead of it when the loop starts, neither the time of the last check nor
    the time of the last reload ever decreases. *)
Theorem timestamps_never_decrease (w : world) (l : locals) :
  forall (its : list iter_env) (t0 : Z) (v : loop_vars) (t : list call)
         (v' : loop_vars),
    monotone_clock t0 its ->
    last_update_check v <= t0 ->
    last_config_check v <= t0 ->
    control_loop w l its v = (t, Continue v') ->
    last_update_check v <= last_update_check v'
    /\ last_config_check v <= last_config_check v'.
Proof.
  induction its as [|ie its IH]; intros t0 v t v' Hm Hu Hcfg H.
  - cbn in H. destruct (cont v); [discriminate|]. injection H as _ <-. lia.
  - destruct (cont v) eqn:Hc.
    2:{ rewrite control_loop_flag in H by assumption. injection H as _ <-. lia. }
    destruct (past_end_time l ie) eqn:Hp.
    + rewrite control_loop_break in H by assumption. injection H as _ <-. lia.
    + destruct (loop_body_next w l ie v Hp) as (tb & v1 & E & _).
      rewrite (control_loop_next _ _ _ _ _ _ _ Hc E) in H.
      destruct (loop_body_timestamps _ _ _ _ _ _ E) as [K1 K2].
      destruct (control_loop w l its v1) as [tl r] eqn:El. cbn [trace result fst snd] in H.
      injection H as _ Hres. subst r.
      cbn [monotone_clock] in Hm. destruct Hm as (M1 & M2 & M3 & Hm).
      destruct (IH (ie_time_check ie) v1 tl v' Hm) as [I1 I2];
        [lia | lia | exact El | lia].
Qed.

Lemma timestamps_never_decrease_witness :
  exists tl v',
    control_loop sample_world sample_locals
      [pass 1031 1010 (0, slow_cfg); with_signal_in_sleep (idle_pass 1032)]
      (vars_at 1000 1000)
    = (tl, Continue v')
    /\ last_update_check (vars_at 1000 1000) <= last_update_check v'
    /\ last_config_check (vars_at 1000 1000) <= last_config_check v'.
Proof.
  eexists _, _. split; [reflexivity|].
  eapply (timestamps_never_decrease sample_world sample_locals
           [pass 1031 1010 (0, slow_cfg); with_signal_in_sleep (idle_pass 1032)]
           1000 (vars_at 1000 1000)).
  - cbn. lia.
  - cbn. lia.
  - cbn. lia.
  - reflexivity.
Defined.

(** ** Signals *)

(** X14.  A signal that arrives while a pass is still at work does not cut the
    pass short: the pass runs to its end, sleeps the whole interval, and
    only then the loop ends; no later pass is started. *)
Theorem signal_at_work_ends_loop_after_the_sleep
  (w : world) (l : locals) (ie : iter_env) (post : list iter_env) (v : loop_vars) :
  cont v = true ->
  past_end_time l ie = false ->
  ie_sig_work ie = true ->
  exists t v',
    loop_body w l ie v = (t ++ [usleep (sleep_time l)], Continue (Next v'))
    /\ control_loop w l (ie :: post) v
       = (t ++ [usleep (sleep_time l)], Continue v')
    /\ cont v' = false
    /\ sleeps t = [].
Proof.
  intros Hc Hp Hsig.
  destruct (loop_body_next w l ie v Hp) as (t & v' & E & S & _ & C).
  rewrite Hsig in C.
  assert (C' : cont v' = false) by (destruct (ie_sig_sleep ie); exact C).
  exists t, v'. split; [exact E|]. split; [|split; assumption].
  rewrite (control_loop_next _ _ _ _ _ _ _ Hc E), (control_loop_flag _ _ _ _ C').
  cbn [trace result fst snd]. rewrite app_nil_r. reflexivity.
Qed.

Lemma signal_at_work_ends_loop_after_the_sleep_witness :
  exists t v',
    loop_body sample_world sample_locals (with_signal_in_work (idle_pass 1000))
      (vars_at 1000 1000)
    = (t ++ [usleep (sleep_time sample_locals)], Continue (Next v'))
    /\ control_loop sample_world sample_locals
         (with_signal_in_work (idle_pass 1000) :: [idle_pass 1001; idle_pass 1002])
         (vars_at 1000 1000)
       = (t ++ [usleep (sleep_time sample_locals)], Continue v')
    /\ cont v' = false
    /\ sleeps t = [].
Proof.
  apply (signal_at_work_ends_loop_after_the_sleep sample_world sample_locals
           (with_signal_in_work (idle_pass 1000)) [idle_pass 1001; idle_pass 1002]
           (vars_at 1000 1000)); reflexivity.
Defined.

(** X15.  A signal that arrives after the handlers are installed and before the
    first test of [cont] makes the run skip the loop altogether: after the
    startup calls comes the cleanup, whatever the oracle of the loop holds;
    the program is still detached. *)
Theorem early_signal_skips_the_loop (w : world) :
  startup_ok w = true ->
  w_sig_startup w = true ->
  exists rb0,
    main w
    = (trace (startup w) ++ trace (cleanup w (init_locals w rb0) (init_vars w)),
       result (cleanup w (init_locals w rb0) (init_vars w)))
    /\ sleeps (trace (main w)) = []
    /\ count is_detach (trace (main w)) = 1%nat.
Proof.
  intros Hok Hsig.
  assert (Hc : cont (init_vars w) = false) by (cbn; rewrite Hsig; reflexivity).
  destruct (run_shape w Hok)
    as (ts & rb0 & Es & S & D & _ & [(tl & El & _) | (tl & v' & El & Em)]);
    rewrite (control_loop_flag _ _ _ _ Hc) in El; [discriminate|].
  injection El as <- <-. exists rb0. rewrite Em, Es. cbn [trace result fst snd app].
  split; [reflexivity|].
  rewrite sleeps_app, count_app, S, D.
  destruct (Z.eq_dec (w_detach w) 0) as [Hd|Hd].
  - destruct (cleanup_detach_ok w (init_locals w rb0) (init_vars w) Hd)
      as (tc & -> & Sc & Dc & _).
    cbn [trace fst]. rewrite Sc, Dc. split; reflexivity.
  - destruct (cleanup_detach_failed w (init_locals w rb0) (init_vars w) Hd)
      as (tc & -> & Sc & Dc & _).
    cbn [trace fst]. rewrite Sc, Dc. split; reflexivity.
Qed.

Lemma early_signal_skips_the_loop_witness :
  exists rb0,
    main (with_startup sample_world false false (0, sample_cfg) true)
    = (trace (startup (with_startup sample_world false false (0, sample_cfg) true))
       ++ trace (cleanup (with_startup sample_world false false (0, sample_cfg) true)
                   (init_locals (with_startup sample_world false false (0, sample_cfg) true) rb0)
                   (init_vars (with_startup sample_world false false (0, sample_cfg) true))),
       result (cleanup (with_startup sample_world false false (0, sample_cfg) true)
                 (init_locals (with_startup sample_world false false (0, sample_cfg) true) rb0)
                 (init_vars (with_startup sample_world false false (0, sample_cfg) true))))
    /\ sleeps (trace (main (with_startup sample_world false false (0, sample_cfg) true))) = []
    /\ count is_detach
         (trace (main (with_startup sample_world false false (0, sample_cfg) true))) = 1%nat.
Proof.
  apply (early_signal_skips_the_loop
           (with_startup sample_world false false (0, sample_cfg) true));
    reflexivity.
Defined.

(** ** Counting calls *)

(** X16.  With rule logging compiled in, the ring buffer is polled once in every
    pass that sleeps, whether or not a ring buffer exists; without it, never. *)
Theorem poll_once_per_pass (w : world) (l : locals)
  (its : list iter_env) (v : loop_vars) :
  count is_poll (trace (control_loop w l its v))
  = if ENABLE_RULE_LOGGING w
    then List.length (sleeps (trace (control_loop w l its v)))
    else 0%nat.
Proof.
  apply (control_loop_additive w l
           (fun t => count is_poll t
                     = if ENABLE_RULE_LOGGING w then List.length (sleeps t) else 0%nat)).
  - destruct (ENABLE_RULE_LOGGING w); reflexivity.
  - intros a b Ha Hb. rewrite count_app, sleeps_app, length_app, Ha, Hb.
    destruct (ENABLE_RULE_LOGGING w); reflexivity.
  - intros ie v0. unfold loop_body, auto_update, reload, show_stats.
    destruct (ie_load_config ie) as [r c].
    destruct (ENABLE_RULE_LOGGING w); crunch_trace; reflexivity.
Qed.

Lemma loop_no_pin (w : world) (l : locals) (its : list iter_env) (v : loop_vars) :
  count is_pin_map (trace (control_loop w l its v)) = 0%nat.
Proof.
  apply (control_loop_additive w l (fun t => count is_pin_map t = 0%nat)).
  - reflexivity.
  - intros a b Ha Hb. rewrite count_app, Ha, Hb. reflexivity.
  - intros ie v0. unfold loop_body, auto_update, reload, show_stats.
    destruct (ie_load_config ie) as [r c]. crunch_trace; reflexivity.
Qed.

Lemma bring_up_no_pin (w : world) :
  count is_pin_map (trace (bring_up w)) = 0%nat.
Proof. unfold trace. bring_up_cases w ltac:(crunch_trace; reflexivity). Qed.

(** X17.  A map is pinned at most once in a run, at startup, and exactly when the
    run passes the startup guards with pinning enabled in the configuration
    loaded at startup: a reload that turns pinning on never pins. *)
Theorem pinning_is_decided_at_startup (w : world) :
  count is_pin_map (trace (main w))
  = if startup_ok w && cfg_pin_maps (snd (w_load_config w)) then 1%nat else 0%nat.
Proof.
  destruct (startup_ok w) eqn:Hok; cbn [andb].
  - destruct (main_of_startup w Hok) as (t0 & rb0 & E0 & ->).
    pose proof (bring_up_no_pin w) as Hb. rewrite E0 in Hb.
    pose proof (loop_no_pin w (init_locals w rb0) (w_iters w) (init_vars w)) as Hl.
    assert (He : count is_pin_map (trace (enter_loop w rb0)) = 0%nat)
      by (unfold enter_loop; crunch_trace; reflexivity).
    assert (Hc : count is_pin_map
                   match result (control_loop w (init_locals w rb0) (w_iters w)
                                   (init_vars w)) with
                   | Continue v' => trace (cleanup w (init_locals w rb0) v')
                   | _ => []
                   end = 0%nat).
    { destruct (result (control_loop w (init_locals w rb0) (w_iters w) (init_vars w)));
        try reflexivity.
      unfold cleanup, unpin_needed_maps. crunch_trace; reflexivity. }
    change (trace (t0, Continue rb0)) with t0 in Hb.
    change (trace (?a, ?b)) with a.
    rewrite !count_app, Hb, Hl, He, Hc, pin_needed_maps_trace.
    destruct (cfg_pin_maps (snd (w_load_config w))), (w_pin w =? 0); reflexivity.
  - destruct (main_of_failed_startup w Hok) as (code & ->). apply bring_up_no_pin.
Qed.

Lemma bring_up_loads_once (w : world) :
  startup_ok w = true ->
  count is_load_config (trace (bring_up w)) = 1%nat
  /\ count is_update_rules (trace (bring_up w)) = 0%nat.
Proof.
  unfold startup_ok, attach_ok, lookup_reached, trace.
  bring_up_cases w ltac:(cbn; intros H; try discriminate H;
                          crunch_trace; split; reflexivity).
Qed.

Lemma loop_pushes_what_it_loads (w : world) (l : locals)
  (its : list iter_env) (v : loop_vars) :
  count is_update_rules (trace (control_loop w l its v))
  = count is_load_config (trace (control_loop w l its v)).
Proof.
  apply (control_loop_additive w l
           (fun t => count is_update_rules t = count is_load_config t)).
  - reflexivity.
  - intros a b Ha Hb. rewrite !count_app, Ha, Hb. reflexivity.
  - intros ie v0. unfold loop_body, auto_update, reload, show_stats.
    destruct (ie_load_config ie) as [r c]. crunch_trace; reflexivity.
Qed.

(** X18.  In a run that passes the startup guards, the rules are pushed to the
    kernel map exactly as often as the configuration is loaded: once at
    startup and once after every reload, whether that reload succeeded or
    failed, and at no other time. *)
Theorem one_rule_push_per_config_load (w : world) :
  startup_ok w = true ->
  count is_update_rules (trace (main w)) = count is_load_config (trace (main w)).
Proof.
  intros Hok. destruct (main_of_startup w Hok) as (t0 & rb0 & E0 & ->).
  destruct (bring_up_loads_once w Hok) as [Bl Bu]. rewrite E0 in Bl, Bu.
  pose proof (loop_pushes_what_it_loads w (init_locals w rb0) (w_iters w) (init_vars w))
    as Hl.
  assert (He : count is_update_rules (trace (enter_loop w rb0)) = 1%nat
               /\ count is_load_config (trace (enter_loop w rb0)) = 0%nat)
    by (unfold enter_loop; crunch_trace; split; reflexivity).
  assert (Hp : count is_update_rules (trace (pin_needed_maps w (snd (w_load_config w))))
               = 0%nat
               /\ count is_load_config (trace (pin_needed_maps w (snd (w_load_config w))))
                  = 0%nat)
    by (rewrite pin_needed_maps_trace;
        destruct (cfg_pin_maps (snd (w_load_config w))), (w_pin w =? 0);
        split; reflexivity).
  assert (Hc : forall p, p = is_update_rules \/ p = is_load_config ->
               count p
                 match result (control_loop w (init_locals w rb0) (w_iters w)
                                 (init_vars w)) with
                 | Continue v' => trace (cleanup w (init_locals w rb0) v')
                 | _ => []
                 end = 0%nat).
  { intros p Hp'.
    destruct (result (control_loop w (init_locals w rb0) (w_iters w) (init_vars w)));
      try reflexivity.
    unfold cleanup, unpin_needed_maps.
    destruct Hp' as [-> | ->]; crunch_trace; reflexivity. }
  destruct He as [He1 He2]. destruct Hp as [Hp1 Hp2].
  pose proof (Hc is_update_rules (or_introl eq_refl)) as Hc1.
  pose proof (Hc is_load_config (or_intror eq_refl)) as Hc2.
  unfold trace in *. cbn [fst] in *.
  rewrite !count_app, Bl, Bu, He1, He2, Hp1, Hp2, Hl, Hc1, Hc2. lia.
Qed.

Lemma one_rule_push_per_config_load_witness :
  count is_update_rules (trace (main sample_world))
  = count is_load_config (trace (main sample_world)).
Proof.
  apply (one_rule_push_per_config_load sample_world). reflexivity.
Defined.

(** ** The ring buffer of the rule log *)

Lemma bring_up_ring_buffer (w : world) :
  startup_ok w = true ->
  result (bring_up w) = Continue (ring_buffer_created w)
  /\ count is_rb_free (trace (bring_up w)) = 0%nat.
Proof.
  unfold startup_ok, attach_ok, lookup_reached, ring_buffer_created, trace, result.
  bring_up_cases w ltac:(cbn; intros H; try discriminate H;
                          destruct (ENABLE_RULE_LOGGING w);
                          crunch_trace; split; reflexivity).
Qed.

Lemma loop_no_ring_buffer_free (w : world) (l : locals)
  (its : list iter_env) (v : loop_vars) :
  count is_rb_free (trace (control_loop w l its v)) = 0%nat.
Proof.
  apply (control_loop_additive w l (fun t => count is_rb_free t = 0%nat)).
  - reflexivity.
  - intros a b Ha Hb. rewrite count_app, Ha, Hb. reflexivity.
  - intros ie v0. unfold loop_body, auto_update, reload, show_stats.
    destruct (ie_load_config ie) as [r c]. crunch_trace; reflexivity.
Qed.

(** X19.  In a run that passes the startup guards, the ring buffer is freed exactly
    once if the run returns and a ring buffer was created at startup, and is
    never freed otherwise: not when rule logging is compiled out, the log map
    is missing or the creation failed, and not more than once. *)
Theorem ring_buffer_freed_iff_created (w : world) :
  startup_ok w = true ->
  count is_rb_free (trace (main w))
  = match exit_status (main w) with
    | Some _ => if ring_buffer_created w then 1%nat else 0%nat
    | None => 0%nat
    end.
Proof.
  intros Hok. destruct (main_of_startup w Hok) as (t0 & rb0 & E0 & ->).
  destruct (bring_up_ring_buffer w Hok) as [Hrb Hb]. rewrite E0 in Hrb, Hb.
  injection Hrb as ->.
  pose proof (loop_no_ring_buffer_free w (init_locals w (ring_buffer_created w))
                (w_iters w) (init_vars w)) as Hl.
  destruct (control_loop_trace w (init_locals w (ring_buffer_created w))
              (w_iters w) (init_vars w)) as (_ & _ & R).
  assert (He : count is_rb_free (trace (enter_loop w (ring_buffer_created w))) = 0%nat)
    by (unfold enter_loop; crunch_trace; reflexivity).
  assert (Hp : count is_rb_free (trace (pin_needed_maps w (snd (w_load_config w))))
               = 0%nat)
    by (rewrite pin_needed_maps_trace;
        destruct (cfg_pin_maps (snd (w_load_config w))), (w_pin w =? 0); reflexivity).
  unfold exit_status, trace in *. cbn [fst snd result] in *.
  rewrite !count_app, Hb, He, Hp, Hl.
  destruct (result (control_loop w (init_locals w (ring_buffer_created w))
                      (w_iters w) (init_vars w))) as [code| |v'] eqn:Er.
  - exfalso. exact (R code eq_refl).
  - reflexivity.
  - unfold cleanup, unpin_needed_maps.
    assert (Hrbl : rb (init_locals w (ring_buffer_created w)) = ring_buffer_created w)
      by reflexivity.
    rewrite Hrbl. unfold ring_buffer_created.
    destruct (ENABLE_RULE_LOGGING w), (negb (w_map_fwd_rules_log w <? 0)),
      (w_ring_buffer_new w); cbn [andb];
      crunch_trace; reflexivity.
Qed.

Lemma ring_buffer_freed_iff_created_witness :
  count is_rb_free (trace (main (with_rule_logging sample_world))) = 1%nat.
Proof.
  apply (ring_buffer_freed_iff_created (with_rule_logging sample_world)).
  reflexivity.
Defined.
